(** * Hotplug callback registry of libusbx (libusb/hotplug.c)

    A shallow embedding of the four entry points of [hotplug.c]
    ([usbi_hotplug_match], [libusb_hotplug_register_callback],
    [libusb_hotplug_deregister_callback], [usbi_hotplug_deregister_all])
    and of the static matcher [usbi_hotplug_match_cb], as functions in a
    state monad over an explicit [world].

    Modelling conventions.
    - Pointers are integers; [NULL] is 0.  C [int] values are [Z].
    - The three intrusive lists of a context ([hotplug_cbs], [usb_devs],
      [open_devs]) are Rocq lists whose first element is the node that
      follows the list head.
    - A user callback is a function pointer; what it computes is given by
      the section variable [call_fn], which may read and update a private
      [user_state].  Callbacks are taken not to re-enter the hotplug API.
    - Every callback invocation is recorded in [trace], together with the
      mutexes the calling thread holds at that moment.
    - The result of [calloc] is an input ([calloc_ok]).
*)

From Stdlib Require Import ZArith List Bool Lia Sorted.
Import ListNotations.
Local Open Scope Z_scope.

(** ** Data *)

Definition ctx_ptr := Z.
Definition fnptr := Z.
Definition NULL : Z := 0.

(** Constants that hotplug.c takes from libusb.h, with the values they are
    declared with there: the wildcard of the three filter fields, the two
    event bits, the enumerate flag and the four result codes. *)
Definition LIBUSB_HOTPLUG_MATCH_ANY : Z := -1.
Definition LIBUSB_HOTPLUG_EVENT_DEVICE_ARRIVED : Z := 1.
Definition LIBUSB_HOTPLUG_EVENT_DEVICE_LEFT : Z := 2.
Definition LIBUSB_HOTPLUG_ENUMERATE : Z := 1.
Definition LIBUSB_SUCCESS : Z := 0.
Definition LIBUSB_ERROR_INVALID_PARAM : Z := -2.
Definition LIBUSB_ERROR_NO_MEM : Z := -11.
Definition LIBUSB_ERROR_NOT_SUPPORTED : Z := -12.

Definition INT_MAX : Z := 2147483647.

(** Two's complement reading of a value as a 32-bit C [int]. *)
Definition wrap_int (z : Z) : Z := (z + 2147483648) mod 4294967296 - 2147483648.

(** [struct libusb_device]: the fields hotplug.c reads.  [dev_addr] is the
    address of the struct, used where the code compares device pointers. *)
Record libusb_device := mkDevice {
  dev_addr : Z;
  dev_ctx : ctx_ptr;
  idVendor : Z;
  idProduct : Z;
  bDeviceClass : Z
}.

(** [struct libusb_device_handle]: the device pointer and the liveness flag. *)
Record libusb_device_handle := mkHandle {
  hdl_dev : Z;
  hdl_disconnected : bool
}.

(** [struct libusb_hotplug_callback]. *)
Record libusb_hotplug_callback := mkCallback {
  cb_ctx : ctx_ptr;
  vendor_id : Z;
  product_id : Z;
  dev_class : Z;
  cb_flags : Z;
  cb_events : Z;
  cb_fn : fnptr;
  cb_handle : Z;
  user_data : Z;
  needs_free : Z
}.

Definition set_needs_free (v : Z) (c : libusb_hotplug_callback) : libusb_hotplug_callback :=
  mkCallback (cb_ctx c) (vendor_id c) (product_id c) (dev_class c) (cb_flags c)
             (cb_events c) (cb_fn c) (cb_handle c) (user_data c) v.

(** The part of [struct libusb_context] that hotplug.c touches. *)
Record libusb_context := mkContext {
  hotplug_cbs : list libusb_hotplug_callback;
  usb_devs : list libusb_device;
  open_devs : list libusb_device_handle
}.

Inductive mutex :=
| hotplug_cbs_lock (c : ctx_ptr)
| usb_devs_lock (c : ctx_ptr)
| open_devs_lock (c : ctx_ptr).

Definition mutex_eqb (a b : mutex) : bool :=
  match a, b with
  | hotplug_cbs_lock x, hotplug_cbs_lock y => x =? y
  | usb_devs_lock x, usb_devs_lock y => x =? y
  | open_devs_lock x, open_devs_lock y => x =? y
  | _, _ => false
  end.

(** The lock set once [m] is released. *)
Definition unlocked (m : mutex) (l : list mutex) : list mutex :=
  filter (fun x => negb (mutex_eqb x m)) l.

(** One invocation of a user callback: the entry whose [cb] was called, the
    four arguments it received, and the mutexes held by the caller. *)
Record cb_call := mkCall {
  call_cb : libusb_hotplug_callback;
  call_ctx : ctx_ptr;
  call_dev : libusb_device;
  call_event : Z;
  call_user_data : Z;
  call_held : list mutex
}.

(** Process state.  [handle_id] is the function-static counter of
    [libusb_hotplug_register_callback]; [mem] holds the [int] cells that
    out-parameters point to. *)
Record world (U : Type) := mkWorld {
  ctxs : ctx_ptr -> libusb_context;
  usbi_default_context : ctx_ptr;
  has_hotplug : bool;
  handle_id : Z;
  mem : Z -> Z;
  held : list mutex;
  trace : list cb_call;
  ustate : U
}.

Arguments mkWorld {U}.
Arguments ctxs {U}.
Arguments usbi_default_context {U}.
Arguments has_hotplug {U}.
Arguments handle_id {U}.
Arguments mem {U}.
Arguments held {U}.
Arguments trace {U}.
Arguments ustate {U}.

(** The operations of hotplug.c as data, for statements about runs:
    [usbi_hotplug_match], [libusb_hotplug_register_callback] (with the
    outcome of its allocation), [libusb_hotplug_deregister_callback] and
    [usbi_hotplug_deregister_all]. *)
Inductive api_call :=
| Dispatch (dev : libusb_device) (event : Z)
| Register (ctx events flags vendor_id product_id dev_class : Z)
           (cb_fn : fnptr) (user_data handle : Z) (calloc_ok : bool)
| Deregister (ctx handle : Z)
| DeregisterAll (ctx : ctx_ptr).

(** Spec-side names for the Matcher's outcome (section 4.2 of the spec). *)
Inductive outcome := NO_MATCH | MATCHED_KEEP | REMOVE.

Definition empty_context : libusb_context := mkContext [] [] [].

(** A world at process start: counter at 1, nothing registered, no device. *)
Definition initial_world {U} (cap : bool) (dflt : ctx_ptr) (u : U) : world U :=
  mkWorld (fun _ => empty_context) dflt cap 1 (fun _ => 0) [] [] u.

(** Callbacks of the worked examples: the user state counts the invocations;
    the callback at address 2 asks to be detached (returns 1), every other
    one returns 0. *)
Definition example_call_fn (f : fnptr) (ctx : ctx_ptr) (dev : libusb_device)
           (event data : Z) (u : Z) : Z * Z :=
  (if f =? 2 then 1 else 0, u + 1).

(** A device of context 7 and a second one, with an open handle on each. *)
Definition example_dev : libusb_device := mkDevice 100 7 1114 20485 0.
Definition example_dev2 : libusb_device := mkDevice 200 7 1234 1 9.

(** An entry for vendor 0x045a, product 0x5005, any class, both events. *)
Definition example_cb : libusb_hotplug_callback :=
  mkCallback 7 1114 20485 (-1) 0 3 1 1 0 0.

Definition example_world : world Z :=
  mkWorld (fun c => if c =? 7
                    then mkContext [] [example_dev; example_dev2]
                                   [mkHandle 100 false; mkHandle 200 false;
                                    mkHandle 100 false]
                    else empty_context)
          5 true 1 (fun _ => 0) [] [] 0.

(** A world in which context 7 holds an active entry (handle 2) in front of
    an entry pending removal (handle 1). *)
Definition example_active : libusb_hotplug_callback :=
  mkCallback 7 (-1) (-1) (-1) 0 3 1 2 0 0.
Definition example_pending : libusb_hotplug_callback :=
  mkCallback 7 (-1) (-1) (-1) 0 3 1 1 0 1.

Definition example_pending_world : world Z :=
  mkWorld (fun c => if c =? 7
                    then mkContext [example_active; example_pending]
                                   [example_dev; example_dev2]
                                   [mkHandle 100 false]
                    else empty_context)
          5 true 3 (fun _ => 0) [] [] 0.

(** Registration of a catch-all entry for both events on context [ctx],
    calling the callback at [f]. *)
Definition register_any (ctx flags : Z) (f : fnptr) (handle : Z) : api_call :=
  Register ctx 3 flags (-1) (-1) (-1) f 0 handle true.

Definition example_ops : list api_call :=
  [register_any 7 1 1 0; Deregister 7 2; Dispatch example_dev 1;
   register_any 0 0 1 0; DeregisterAll 7].

(** A world in which context 7 holds two active entries whose callback (at
    address 2) asks to be detached; the second one is for vendor 1234. *)
Definition example_detach_world : world Z :=
  mkWorld (fun c => if c =? 7
                    then mkContext [mkCallback 7 (-1) (-1) (-1) 0 3 2 2 0 0;
                                    mkCallback 7 1234 (-1) (-1) 0 3 2 1 0 0]
                                   [example_dev; example_dev2] []
                    else empty_context)
          5 true 3 (fun _ => 0) [] [] 0.

Section Model.

Variable user_state : Type.

(** [call_fn f ctx dev event user_data u]: the [int] returned by the
    callback at address [f] and the user state it leaves behind. *)
Variable call_fn :
  fnptr -> ctx_ptr -> libusb_device -> Z -> Z -> user_state -> Z * user_state.

Local Abbreviation World := (world user_state).

(** ** A state monad over the world *)

Definition M (A : Type) : Type := World -> A * World.

Definition ret {A} (a : A) : M A := fun w => (a, w).

Definition bind {A B} (m : M A) (k : A -> M B) : M B :=
  fun w => k (fst (m w)) (snd (m w)).

Notation "x <- m ;; k" := (bind m (fun x => k))
  (at level 61, m at next level, right associativity).
Notation "m ;;; k" := (bind m (fun _ => k))
  (at level 61, right associativity).

Definition gets {A} (f : World -> A) : M A := fun w => (f w, w).
Definition modify (f : World -> World) : M unit := fun w => (tt, f w).

Definition set_ctxs (f : ctx_ptr -> libusb_context) (w : World) : World :=
  mkWorld f (usbi_default_context w) (has_hotplug w) (handle_id w) (mem w)
          (held w) (trace w) (ustate w).
Definition set_handle_id (h : Z) (w : World) : World :=
  mkWorld (ctxs w) (usbi_default_context w) (has_hotplug w) h (mem w)
          (held w) (trace w) (ustate w).
Definition set_mem (m : Z -> Z) (w : World) : World :=
  mkWorld (ctxs w) (usbi_default_context w) (has_hotplug w) (handle_id w) m
          (held w) (trace w) (ustate w).
Definition set_held (l : list mutex) (w : World) : World :=
  mkWorld (ctxs w) (usbi_default_context w) (has_hotplug w) (handle_id w) (mem w)
          l (trace w) (ustate w).
Definition set_trace_ustate (t : list cb_call) (u : user_state) (w : World) : World :=
  mkWorld (ctxs w) (usbi_default_context w) (has_hotplug w) (handle_id w) (mem w)
          (held w) t u.

Definition upd_ctx (c : ctx_ptr) (x : libusb_context)
           (f : ctx_ptr -> libusb_context) : ctx_ptr -> libusb_context :=
  fun c' => if c' =? c then x else f c'.

Definition set_hotplug_cbs (c : ctx_ptr) (l : list libusb_hotplug_callback) : M unit :=
  modify (fun w =>
    set_ctxs (upd_ctx c (mkContext l (usb_devs (ctxs w c)) (open_devs (ctxs w c)))
                      (ctxs w)) w).

Definition set_open_devs (c : ctx_ptr) (l : list libusb_device_handle) : M unit :=
  modify (fun w =>
    set_ctxs (upd_ctx c (mkContext (hotplug_cbs (ctxs w c)) (usb_devs (ctxs w c)) l)
                      (ctxs w)) w).

(** ** Collaborators declared outside hotplug.c *)

Definition usbi_mutex_lock (m : mutex) : M unit :=
  modify (fun w => set_held (m :: held w) w).

Definition usbi_mutex_unlock (m : mutex) : M unit :=
  modify (fun w => set_held (unlocked m (held w)) w).

(** [libusb_has_capability(LIBUSB_CAP_HAS_HOTPLUG)]. *)
Definition libusb_has_capability : M bool := gets has_hotplug.

(** The macro [USBI_GET_CONTEXT]: a null context stands for the default one. *)
Definition USBI_GET_CONTEXT (ctx : ctx_ptr) : M ctx_ptr :=
  fun w => (if ctx =? NULL then usbi_default_context w else ctx, w).

(** [list_add(entry, head)] of libusbi.h links [entry] directly behind the
    list head, so it becomes the first node that a traversal from the head
    meets ([list_add_tail] is the variant that appends). *)
Definition list_add {A} (entry : A) (l : list A) : list A := entry :: l.

(** Modelled from the spec: [usbi_handle_disconnect] is defined outside
    hotplug.c; the spec describes it as marking the handle disconnected
    (liveness goes from live to disconnected). *)
Definition usbi_handle_disconnect (h : libusb_device_handle) : libusb_device_handle :=
  mkHandle (hdl_dev h) true.

(** Calling through a callback pointer: run the user code and log the call. *)
Definition invoke (hotplug_cb : libusb_hotplug_callback) (ctx : ctx_ptr)
           (dev : libusb_device) (event : Z) (data : Z) : M Z :=
  fun w =>
    let r := call_fn (cb_fn hotplug_cb) ctx dev event data (ustate w) in
    (fst r,
     set_trace_ustate (trace w ++ [mkCall hotplug_cb ctx dev event data (held w)])
                      (snd r) w).

(** ** hotplug.c *)

(** [usbi_hotplug_match_cb] (lines 130-162). *)
Definition usbi_hotplug_match_cb (dev : libusb_device) (event : Z)
           (hotplug_cb : libusb_hotplug_callback) : M Z :=
  let ctx := dev_ctx dev in
  if negb (needs_free hotplug_cb =? 0) then ret 1
  else if Z.land (cb_events hotplug_cb) event =? 0 then ret 0
  else if negb (LIBUSB_HOTPLUG_MATCH_ANY =? vendor_id hotplug_cb)
          && negb (vendor_id hotplug_cb =? idVendor dev) then ret 0
  else if negb (LIBUSB_HOTPLUG_MATCH_ANY =? product_id hotplug_cb)
          && negb (product_id hotplug_cb =? idProduct dev) then ret 0
  else if negb (LIBUSB_HOTPLUG_MATCH_ANY =? dev_class hotplug_cb)
          && negb (dev_class hotplug_cb =? bDeviceClass dev) then ret 0
  else
    dflt <- gets usbi_default_context ;;
    invoke hotplug_cb (if ctx =? dflt then NULL else ctx) dev event
           (user_data hotplug_cb).

(** The [list_for_each_entry_safe] loop of [usbi_hotplug_match]
    (lines 172-181): the lock is dropped around the matcher, and an entry
    for which the matcher returns non-zero is unlinked and freed.  The
    result is the list of entries that stay linked. *)
Fixpoint match_pass (ctx : ctx_ptr) (dev : libusb_device) (event : Z)
         (cbs : list libusb_hotplug_callback) : M (list libusb_hotplug_callback) :=
  match cbs with
  | [] => ret []
  | hotplug_cb :: next =>
      usbi_mutex_unlock (hotplug_cbs_lock ctx) ;;;
      r <- usbi_hotplug_match_cb dev event hotplug_cb ;;
      usbi_mutex_lock (hotplug_cbs_lock ctx) ;;;
      kept <- match_pass ctx dev event next ;;
      ret (if r =? 0 then hotplug_cb :: kept else kept)
  end.

(** [usbi_hotplug_match] (lines 164-197). *)
Definition usbi_hotplug_match (dev : libusb_device) (event : Z) : M unit :=
  let ctx := dev_ctx dev in
  usbi_mutex_lock (hotplug_cbs_lock ctx) ;;;
  cbs <- gets (fun w => hotplug_cbs (ctxs w ctx)) ;;
  kept <- match_pass ctx dev event cbs ;;
  set_hotplug_cbs ctx kept ;;;
  usbi_mutex_unlock (hotplug_cbs_lock ctx) ;;;
  if LIBUSB_HOTPLUG_EVENT_DEVICE_LEFT =? event then
    usbi_mutex_lock (open_devs_lock ctx) ;;;
    handles <- gets (fun w => open_devs (ctxs w ctx)) ;;
    set_open_devs ctx
      (map (fun handle =>
              if dev_addr dev =? hdl_dev handle
              then usbi_handle_disconnect handle else handle) handles) ;;;
    usbi_mutex_unlock (open_devs_lock ctx)
  else ret tt.

(** The enumeration loop of registration (lines 251-253); the matcher's
    result is discarded. *)
Fixpoint enumerate_devs (devs : list libusb_device)
         (new_callback : libusb_hotplug_callback) : M unit :=
  match devs with
  | [] => ret tt
  | dev :: rest =>
      usbi_hotplug_match_cb dev LIBUSB_HOTPLUG_EVENT_DEVICE_ARRIVED new_callback ;;;
      enumerate_devs rest new_callback
  end.

(** The sanity test of lines 214-217. *)
Definition insane_values (vendor_id product_id dev_class : Z) (cb_fn : fnptr) : bool :=
  (negb (LIBUSB_HOTPLUG_MATCH_ANY =? vendor_id)
     && negb (Z.land (Z.lnot 65535) vendor_id =? 0))
  || (negb (LIBUSB_HOTPLUG_MATCH_ANY =? product_id)
        && negb (Z.land (Z.lnot 65535) product_id =? 0))
  || (negb (LIBUSB_HOTPLUG_MATCH_ANY =? dev_class)
        && negb (Z.land (Z.lnot 255) dev_class =? 0))
  || (cb_fn =? NULL).

(** [handle_id++] on the static [int] counter. *)
Definition next_handle_id : M Z :=
  fun w => (handle_id w, set_handle_id (wrap_int (handle_id w + 1)) w).

(** Lines 208-258 of [libusb_hotplug_register_callback]: everything up to
    the release of the registry lock.  The result is the error code of an
    early return, or the entry [new_callback] that was linked. *)
Definition register_new_callback (ctx : ctx_ptr) (events flags : Z)
           (vendor_id product_id dev_class : Z) (cb_fn : fnptr) (user_data : Z)
           (calloc_ok : bool) : M (Z + libusb_hotplug_callback) :=
  cap <- libusb_has_capability ;;
  if negb cap then ret (inl LIBUSB_ERROR_NOT_SUPPORTED)
  else if insane_values vendor_id product_id dev_class cb_fn
  then ret (inl LIBUSB_ERROR_INVALID_PARAM)
  else
    ctx <- USBI_GET_CONTEXT ctx ;;
    if negb calloc_ok then ret (inl LIBUSB_ERROR_NO_MEM)
    else
      usbi_mutex_lock (hotplug_cbs_lock ctx) ;;;
      h <- next_handle_id ;;
      let new_callback :=
        mkCallback ctx vendor_id product_id dev_class flags events cb_fn h user_data 0 in
      cbs <- gets (fun w => hotplug_cbs (ctxs w ctx)) ;;
      set_hotplug_cbs ctx (list_add new_callback cbs) ;;;
      (if negb (Z.land flags LIBUSB_HOTPLUG_ENUMERATE =? 0) then
         usbi_mutex_lock (usb_devs_lock ctx) ;;;
         devs <- gets (fun w => usb_devs (ctxs w ctx)) ;;
         enumerate_devs devs new_callback ;;;
         usbi_mutex_unlock (usb_devs_lock ctx)
       else ret tt) ;;;
      usbi_mutex_unlock (hotplug_cbs_lock ctx) ;;;
      ret (inr new_callback).

(** [libusb_hotplug_register_callback] (lines 199-265); [handle] is the
    address of the caller's output cell, possibly null. *)
Definition libusb_hotplug_register_callback (ctx : ctx_ptr) (events flags : Z)
           (vendor_id product_id dev_class : Z) (cb_fn : fnptr) (user_data : Z)
           (handle : Z) (calloc_ok : bool) : M Z :=
  r <- register_new_callback ctx events flags vendor_id product_id dev_class
                             cb_fn user_data calloc_ok ;;
  match r with
  | inl err => ret err
  | inr new_callback =>
      (if negb (handle =? NULL) then
         modify (fun w =>
           set_mem (fun a => if a =? handle then cb_handle new_callback else mem w a) w)
       else ret tt) ;;;
      ret LIBUSB_SUCCESS
  end.

(** [libusb_hotplug_deregister_callback] (lines 267-288). *)
Definition libusb_hotplug_deregister_callback (ctx : ctx_ptr) (handle : Z) : M unit :=
  cap <- libusb_has_capability ;;
  if negb cap then ret tt
  else
    ctx <- USBI_GET_CONTEXT ctx ;;
    usbi_mutex_lock (hotplug_cbs_lock ctx) ;;;
    cbs <- gets (fun w => hotplug_cbs (ctxs w ctx)) ;;
    set_hotplug_cbs ctx
      (map (fun hotplug_cb =>
              if handle =? cb_handle hotplug_cb
              then set_needs_free 1 hotplug_cb else hotplug_cb) cbs) ;;;
    usbi_mutex_unlock (hotplug_cbs_lock ctx).

(** [usbi_hotplug_deregister_all] (lines 290-301): every entry is unlinked
    and freed. *)
Definition usbi_hotplug_deregister_all (ctx : ctx_ptr) : M unit :=
  usbi_mutex_lock (hotplug_cbs_lock ctx) ;;;
  set_hotplug_cbs ctx [] ;;;
  usbi_mutex_unlock (hotplug_cbs_lock ctx).


(** ** Operations as data, for statements about runs *)

Definition exec (op : api_call) (w : World) : World :=
  match op with
  | Dispatch dev event => snd (usbi_hotplug_match dev event w)
  | Register ctx ev fl v p c f d h ok =>
      snd (libusb_hotplug_register_callback ctx ev fl v p c f d h ok w)
  | Deregister ctx h => snd (libusb_hotplug_deregister_callback ctx h w)
  | DeregisterAll ctx => snd (usbi_hotplug_deregister_all ctx w)
  end.

Definition run (ops : list api_call) (w : World) : World :=
  fold_left (fun w op => exec op w) ops w.

(** The handle ids handed out by the successful registrations of a run,
    oldest first. *)
Fixpoint issued_handles (ops : list api_call) (w : World) : list Z :=
  match ops with
  | [] => []
  | op :: rest =>
      match op with
      | Register ctx ev fl v p c f d h ok =>
          match fst (register_new_callback ctx ev fl v p c f d ok w) with
          | inr new_callback => [cb_handle new_callback]
          | inl _ => []
          end
      | _ => []
      end ++ issued_handles rest (exec op w)
  end.

(** ** Vocabulary of the statements *)

Definition registry (w : World) (c : ctx_ptr) : list libusb_hotplug_callback :=
  hotplug_cbs (ctxs w c).

(** The calls logged after the first [n] ones. *)
Definition calls_since (w : World) (w' : World) : list cb_call :=
  skipn (length (trace w)) (trace w').

(** The filter of an entry accepts the device (lines 145-158). *)
Definition filter_accepts (dev : libusb_device) (cb : libusb_hotplug_callback) : bool :=
  ((vendor_id cb =? LIBUSB_HOTPLUG_MATCH_ANY) || (vendor_id cb =? idVendor dev))
  && ((product_id cb =? LIBUSB_HOTPLUG_MATCH_ANY) || (product_id cb =? idProduct dev))
  && ((dev_class cb =? LIBUSB_HOTPLUG_MATCH_ANY) || (dev_class cb =? bDeviceClass dev)).

(** The entry is active, listens to the event and accepts the device. *)
Definition cb_matches (dev : libusb_device) (event : Z)
           (cb : libusb_hotplug_callback) : bool :=
  (needs_free cb =? 0)
  && negb (Z.land (cb_events cb) event =? 0)
  && filter_accepts dev cb.

(** What the caller of the matcher makes of its result: non-zero unlinks
    the entry; zero keeps it, after a callback invocation or without one. *)
Definition matcher_outcome (w : World) (res : Z * World) : outcome :=
  if negb (fst res =? 0) then REMOVE
  else if (length (trace (snd res)) =? length (trace w))%nat then NO_MATCH
       else MATCHED_KEEP.

Definition ctx_or_null (w : World) (dev : libusb_device) : ctx_ptr :=
  if dev_ctx dev =? usbi_default_context w then NULL else dev_ctx dev.

(** A filter value that fits its field: [bits] is 16 or 8. *)
Definition in_domain (bits : Z) (v : Z) : Prop := 0 <= v < 2 ^ bits.

(** Registries list their entries from the most recently issued handle
    down, all handles lie below the counter, and no handle is shared by
    two contexts. *)
Definition wf (w : World) : Prop :=
  (forall c, StronglySorted Z.gt (map cb_handle (registry w c)))
  /\ (forall c e, In e (registry w c) -> cb_handle e < handle_id w)
  /\ (forall c1 c2 e1 e2, In e1 (registry w c1) -> In e2 (registry w c2) ->
                         cb_handle e1 = cb_handle e2 -> c1 = c2).

(** Everything but the lock set, the call log and the user state is the same. *)
Definition same_store (w w' : World) : Prop :=
  ctxs w' = ctxs w
  /\ usbi_default_context w' = usbi_default_context w
  /\ has_hotplug w' = has_hotplug w
  /\ handle_id w' = handle_id w
  /\ mem w' = mem w.

(** The call record the matcher logs for entry [cb]. *)
Definition call_of (w : World) (dev : libusb_device) (event : Z)
           (cb : libusb_hotplug_callback) (locks : list mutex) : cb_call :=
  mkCall cb (ctx_or_null w dev) dev event (user_data cb) locks.

(** The entry that a successful registration creates. *)
Definition new_callback_of (w : World) (ctx ev fl v p c : Z) (f : fnptr) (d : Z)
  : libusb_hotplug_callback :=
  mkCallback (if ctx =? NULL then usbi_default_context w else ctx)
             v p c fl ev f (handle_id w) d 0.

(** The resolved context of an API call ([USBI_GET_CONTEXT]). *)
Definition resolve (w : World) (ctx : ctx_ptr) : ctx_ptr :=
  if ctx =? NULL then usbi_default_context w else ctx.

(** What deregistration does to one entry. *)
Definition mark (handle : Z) (cb : libusb_hotplug_callback) : libusb_hotplug_callback :=
  if handle =? cb_handle cb then set_needs_free 1 cb else cb.

(** What a LEFT event does to one open handle. *)
Definition disconnect_if_bound (dev : libusb_device) (h : libusb_device_handle)
  : libusb_device_handle :=
  if dev_addr dev =? hdl_dev h then usbi_handle_disconnect h else h.

(** Handle [h] has been issued and every entry that carries it is pending
    removal (or already freed). *)
Definition retired (h : Z) (w : World) : Prop :=
  h < handle_id w
  /\ forall c e, In e (registry w c) -> cb_handle e = h -> needs_free e <> 0.

(** The handles of the entries a list of calls went to. *)
Definition called_handles (l : list cb_call) : list Z :=
  map (fun k => cb_handle (call_cb k)) l.

(** A call made while the registry mutex or the open-handle mutex of some
    context is held. *)
Definition under_guard (k : cb_call) : bool :=
  existsb (fun m => match m with
                    | hotplug_cbs_lock _ | open_devs_lock _ => true
                    | usb_devs_lock _ => false
                    end) (call_held k).

(** [n] consecutive integers from [a] on. *)
Definition Zseq (a : Z) (n : nat) : list Z :=
  map (fun i => a + Z.of_nat i) (seq 0 n).

(** The calls that the enumeration of a registration makes for the new
    entry [nc]: one per known device that the entry matches on ARRIVED. *)
Definition enumeration_calls (w : World) (fl : Z) (nc : libusb_hotplug_callback)
  : list cb_call :=
  if negb (Z.land fl LIBUSB_HOTPLUG_ENUMERATE =? 0)
  then map (fun dev => call_of w dev LIBUSB_HOTPLUG_EVENT_DEVICE_ARRIVED nc
                         (usb_devs_lock (cb_ctx nc) :: hotplug_cbs_lock (cb_ctx nc)
                                        :: held w))
           (filter (fun dev => cb_matches dev LIBUSB_HOTPLUG_EVENT_DEVICE_ARRIVED nc)
                   (usb_devs (ctxs w (cb_ctx nc))))
  else [].

(** Some filter field is not ANY and differs from the device's field. *)
Definition filter_mismatch (dev : libusb_device) (cb : libusb_hotplug_callback) : Prop :=
  (vendor_id cb <> LIBUSB_HOTPLUG_MATCH_ANY /\ vendor_id cb <> idVendor dev)
  \/ (product_id cb <> LIBUSB_HOTPLUG_MATCH_ANY /\ product_id cb <> idProduct dev)
  \/ (dev_class cb <> LIBUSB_HOTPLUG_MATCH_ANY /\ dev_class cb <> bDeviceClass dev).

(** The entries that one dispatch calls, by handle: oldest registration
    first, or newest first. *)
Definition oldest_first (w : World) (dev : libusb_device) (event : Z) : Prop :=
  StronglySorted Z.lt (called_handles (calls_since w (exec (Dispatch dev event) w))).

Definition newest_first (w : World) (dev : libusb_device) (event : Z) : Prop :=
  StronglySorted Z.gt (called_handles (calls_since w (exec (Dispatch dev event) w))).

(** The preconditions of registration on its filter and callback: each
    filter field is ANY or fits its domain, and a callback is given. *)
Definition valid_params (v p c : Z) (f : fnptr) : Prop :=
  (v = LIBUSB_HOTPLUG_MATCH_ANY \/ in_domain 16 v)
  /\ (p = LIBUSB_HOTPLUG_MATCH_ANY \/ in_domain 16 p)
  /\ (c = LIBUSB_HOTPLUG_MATCH_ANY \/ in_domain 8 c)
  /\ f <> NULL.

(** The entry is not pending removal. *)
Definition active (cb : libusb_hotplug_callback) : bool := needs_free cb =? 0.

(** What the loop of [match_pass] computes, read on the user state alone:
    the entries that stay linked and the user state the callbacks leave
    behind.  [dflt] is the default context. *)
Fixpoint sweep (dflt : ctx_ptr) (dev : libusb_device) (event : Z)
         (cbs : list libusb_hotplug_callback) (u : user_state)
  : list libusb_hotplug_callback * user_state :=
  match cbs with
  | [] => ([], u)
  | cb :: next =>
      if cb_matches dev event cb then
        let r := call_fn (cb_fn cb) (if dev_ctx dev =? dflt then NULL else dev_ctx dev)
                         dev event (user_data cb) u in
        let s := sweep dflt dev event next (snd r) in
        (if fst r =? 0 then cb :: fst s else fst s, snd s)
      else
        let s := sweep dflt dev event next u in
        (if needs_free cb =? 0 then cb :: fst s else fst s, snd s)
  end.

(** [h'] is the open handle [h] at a later time: bound to the same device,
    and disconnected if [h] was. *)
Definition handle_evolves (h h' : libusb_device_handle) : Prop :=
  hdl_dev h' = hdl_dev h
  /\ (hdl_disconnected h = true -> hdl_disconnected h' = true).

(** A callback invocation that the matcher's tests allow: the entry was
    active, listened to the event and accepted the device; it received its
    own user data, and NULL in place of the default context [dflt]. *)
Definition justified (dflt : ctx_ptr) (k : cb_call) : Prop :=
  cb_matches (call_dev k) (call_event k) (call_cb k) = true
  /\ call_user_data k = user_data (call_cb k)
  /\ call_ctx k = (if dev_ctx (call_dev k) =? dflt then NULL
                   else dev_ctx (call_dev k)).

Inductive sublist {A} : list A -> list A -> Prop :=
| sublist_nil : sublist [] []
| sublist_skip x l l' : sublist l l' -> sublist l (x :: l')
| sublist_cons x l l' : sublist l l' -> sublist (x :: l) (x :: l').

(** ** Basic facts *)

Ltac unfold_m :=
  unfold usbi_mutex_lock, usbi_mutex_unlock, set_hotplug_cbs, set_open_devs,
    libusb_has_capability, USBI_GET_CONTEXT, next_handle_id, invoke in *;
  unfold bind, ret, gets, modify in *; cbn [fst snd] in *.

Lemma sublist_refl {A} (l : list A) : sublist l l.
Proof. induction l; [apply sublist_nil | apply sublist_cons; auto]. Qed.

Lemma sublist_In {A} (l l' : list A) x : sublist l l' -> In x l -> In x l'.
Proof. induction 1; cbn; intuition. Qed.

Lemma sublist_Forall {A} (P : A -> Prop) (l l' : list A) :
  sublist l l' -> Forall P l' -> Forall P l.
Proof.
  induction 1; intros HF; auto.
  - inversion HF; auto.
  - inversion HF; subst; constructor; auto.
Qed.

Lemma sublist_map {A B} (f : A -> B) (l l' : list A) :
  sublist l l' -> sublist (map f l) (map f l').
Proof.
  induction 1; cbn;
    [apply sublist_nil | apply sublist_skip; auto | apply sublist_cons; auto].
Qed.

Lemma sublist_sorted {A} (R : A -> A -> Prop) (l l' : list A) :
  sublist l l' -> StronglySorted R l' -> StronglySorted R l.
Proof.
  induction 1; intros HS; auto.
  - inversion HS; auto.
  - inversion HS; subst. constructor; auto.
    eapply sublist_Forall; eauto.
Qed.

Lemma unlocked_idem m l : unlocked m (unlocked m l) = unlocked m l.
Proof.
  unfold unlocked. induction l as [|x l IH]; cbn; auto.
  destruct (mutex_eqb x m) eqn:E; cbn; rewrite ?E; cbn; congruence.
Qed.

Lemma mutex_eqb_refl m : mutex_eqb m m = true.
Proof. destruct m; cbn; apply Z.eqb_refl. Qed.

Lemma unlocked_cons_same m l : unlocked m (m :: l) = unlocked m l.
Proof. unfold unlocked; cbn. now rewrite mutex_eqb_refl. Qed.

(** The matcher as one case distinction. *)
Lemma match_cb_eq dev event cb w :
  usbi_hotplug_match_cb dev event cb w =
  if cb_matches dev event cb
  then invoke cb (ctx_or_null w dev) dev event (user_data cb) w
  else (if needs_free cb =? 0 then 0 else 1, w).
Proof.
  unfold usbi_hotplug_match_cb, cb_matches, filter_accepts, ctx_or_null.
  rewrite !(Z.eqb_sym LIBUSB_HOTPLUG_MATCH_ANY).
  destruct (needs_free cb =? 0); cbn; [|reflexivity].
  destruct (Z.land (cb_events cb) event =? 0); cbn; [reflexivity|].
  destruct (vendor_id cb =? LIBUSB_HOTPLUG_MATCH_ANY), (vendor_id cb =? idVendor dev);
    cbn; try reflexivity;
    destruct (product_id cb =? LIBUSB_HOTPLUG_MATCH_ANY),
             (product_id cb =? idProduct dev); cbn; try reflexivity;
    destruct (dev_class cb =? LIBUSB_HOTPLUG_MATCH_ANY),
             (dev_class cb =? bDeviceClass dev); cbn; reflexivity.
Qed.

Lemma same_store_trans w1 w2 w3 :
  same_store w1 w2 -> same_store w2 w3 -> same_store w1 w3.
Proof. unfold same_store; intuition congruence. Qed.

Lemma match_cb_store dev event cb w :
  same_store w (snd (usbi_hotplug_match_cb dev event cb w))
  /\ held (snd (usbi_hotplug_match_cb dev event cb w)) = held w.
Proof.
  rewrite match_cb_eq. destruct (cb_matches dev event cb); cbn;
    repeat split.
Qed.

Lemma match_cb_trace dev event cb w :
  trace (snd (usbi_hotplug_match_cb dev event cb w)) =
  trace w ++ (if cb_matches dev event cb
              then [call_of w dev event cb (held w)] else []).
Proof.
  rewrite match_cb_eq. destruct (cb_matches dev event cb); cbn.
  - reflexivity.
  - now rewrite app_nil_r.
Qed.

Lemma match_cb_keep dev event cb w :
  fst (usbi_hotplug_match_cb dev event cb w) = 0 -> needs_free cb = 0.
Proof.
  rewrite match_cb_eq. unfold cb_matches.
  destruct (needs_free cb =? 0) eqn:E; cbn.
  - intros _. now apply Z.eqb_eq.
  - discriminate.
Qed.

(** One pass over the registry (the loop of lines 172-181). *)
Lemma match_pass_spec ctx dev event cbs : forall w,
  let r := match_pass ctx dev event cbs w in
  let L := hotplug_cbs_lock ctx in
  same_store w (snd r)
  /\ sublist (fst r) cbs
  /\ Forall (fun e => needs_free e = 0) (fst r)
  /\ unlocked L (held (snd r)) = unlocked L (held w)
  /\ trace (snd r) =
     trace w ++ map (fun cb => call_of w dev event cb (unlocked L (held w)))
                    (filter (cb_matches dev event) cbs).
Proof.
  induction cbs as [|cb next IH]; intros w; cbn zeta.
  - cbn. repeat split; try constructor. now rewrite app_nil_r.
  - cbn [match_pass]. unfold_m.
    set (w1 := set_held _ w).
    pose proof (match_cb_store dev event cb w1) as [Hs Hh].
    pose proof (match_cb_trace dev event cb w1) as Ht.
    pose proof (match_cb_keep dev event cb w1) as Hk.
    set (r1 := usbi_hotplug_match_cb dev event cb w1) in *.
    set (w2 := set_held _ (snd r1)).
    specialize (IH w2). cbn zeta in IH.
    destruct IH as (Is & Isub & Ifa & Iheld & Itr).
    set (r2 := match_pass ctx dev event next w2) in *.
    assert (Hw2 : unlocked (hotplug_cbs_lock ctx) (held w2)
                  = unlocked (hotplug_cbs_lock ctx) (held w)).
    { subst w2; cbn [held set_held]. rewrite unlocked_cons_same, Hh.
      subst w1; cbn [held set_held]. apply unlocked_idem. }
    assert (Hd : usbi_default_context w2 = usbi_default_context w).
    { subst w2; cbn. destruct Hs as (_ & -> & _). reflexivity. }
    split; [|split; [|split; [|split]]].
    + eapply same_store_trans; [|exact Is].
      destruct Hs as (? & ? & ? & ? & ?). repeat split; assumption.
    + destruct (fst r1 =? 0); [apply sublist_cons | apply sublist_skip]; exact Isub.
    + destruct (fst r1 =? 0) eqn:E; [|exact Ifa].
      constructor; [|exact Ifa]. apply Hk. now apply Z.eqb_eq.
    + rewrite Iheld. exact Hw2.
    + rewrite Itr.
      change (trace w2) with (trace (snd r1)). rewrite Ht.
      change (trace w1) with (trace w).
      change (held w1) with (unlocked (hotplug_cbs_lock ctx) (held w)).
      rewrite <- app_assoc. f_equal. cbn [filter]. rewrite Hw2.
      rewrite (map_ext
                 (fun cb0 => call_of w2 dev event cb0
                               (unlocked (hotplug_cbs_lock ctx) (held w)))
                 (fun cb0 => call_of w dev event cb0
                               (unlocked (hotplug_cbs_lock ctx) (held w)))).
      * destruct (cb_matches dev event cb); reflexivity.
      * intros e. unfold call_of, ctx_or_null. now rewrite Hd.
Qed.

Lemma upd_ctx_same c x f : upd_ctx c x f c = x.
Proof. unfold upd_ctx. now rewrite Z.eqb_refl. Qed.

Lemma upd_ctx_other c x f c' : c' <> c -> upd_ctx c x f c' = f c'.
Proof. unfold upd_ctx. intros H. apply Z.eqb_neq in H. now rewrite H. Qed.

(** What one dispatch does to the world. *)
Lemma hotplug_match_spec dev event w :
  let ctx := dev_ctx dev in
  let L := hotplug_cbs_lock ctx in
  let w' := snd (usbi_hotplug_match dev event w) in
  sublist (registry w' ctx) (registry w ctx)
  /\ Forall (fun e => needs_free e = 0) (registry w' ctx)
  /\ (forall c, c <> ctx -> ctxs w' c = ctxs w c)
  /\ usb_devs (ctxs w' ctx) = usb_devs (ctxs w ctx)
  /\ open_devs (ctxs w' ctx) =
     (if LIBUSB_HOTPLUG_EVENT_DEVICE_LEFT =? event
      then map (fun handle => if dev_addr dev =? hdl_dev handle
                              then usbi_handle_disconnect handle else handle)
               (open_devs (ctxs w ctx))
      else open_devs (ctxs w ctx))
  /\ (usbi_default_context w' = usbi_default_context w
      /\ has_hotplug w' = has_hotplug w
      /\ handle_id w' = handle_id w
      /\ mem w' = mem w)
  /\ trace w' =
     trace w ++ map (fun cb => call_of w dev event cb (unlocked L (held w)))
                    (filter (cb_matches dev event) (registry w ctx))
  /\ held w' =
     (if LIBUSB_HOTPLUG_EVENT_DEVICE_LEFT =? event
      then unlocked (open_devs_lock ctx) (unlocked L (held w))
      else unlocked L (held w)).
Proof.
  cbn zeta. unfold usbi_hotplug_match, registry. unfold_m.
  set (ctx := dev_ctx dev).
  set (w1 := set_held (hotplug_cbs_lock ctx :: held w) w).
  change (hotplug_cbs (ctxs w1 ctx)) with (hotplug_cbs (ctxs w ctx)).
  pose proof (match_pass_spec ctx dev event (hotplug_cbs (ctxs w ctx)) w1) as H.
  cbn zeta in H. destruct H as (Hs & Hsub & Hfa & Hheld & Htr).
  set (r := match_pass ctx dev event (hotplug_cbs (ctxs w ctx)) w1) in *.
  destruct Hs as (Hc & Hd & Hcap & Hid & Hmem).
  change (ctxs w1) with (ctxs w) in Hc.
  change (held w1) with (hotplug_cbs_lock ctx :: held w) in Hheld, Htr.
  rewrite unlocked_cons_same in Hheld, Htr.
  change (trace w1) with (trace w) in Htr.
  assert (Hcall : forall cb l, call_of w1 dev event cb l = call_of w dev event cb l)
    by reflexivity.
  destruct (LIBUSB_HOTPLUG_EVENT_DEVICE_LEFT =? event);
    cbn [fst snd ctxs set_ctxs set_held held trace usbi_default_context
         has_hotplug handle_id mem];
    rewrite ?upd_ctx_same; cbn [hotplug_cbs usb_devs open_devs];
    rewrite ?upd_ctx_same; cbn [hotplug_cbs usb_devs open_devs];
    rewrite ?Hc, ?unlocked_cons_same, ?Hheld;
    (split; [exact Hsub|]); (split; [exact Hfa|]);
    (split; [intros c Hne; rewrite ?upd_ctx_other by exact Hne; now rewrite ?Hc|]);
    (split; [reflexivity|]); (split; [reflexivity|]);
    (split; [repeat split; assumption|]);
    (split; [rewrite Htr; apply f_equal, map_ext; intros; apply Hcall|]);
    reflexivity.
Qed.

(** [~mask & v] is zero exactly when [v] fits in [n] bits. *)
Lemma high_bits_clear n v :
  0 <= n -> (Z.land (Z.lnot (Z.ones n)) v = 0 <-> in_domain n v).
Proof.
  intros Hn. unfold in_domain.
  rewrite Z.land_comm, <- Z.ldiff_land, Z.ldiff_ones_r by exact Hn.
  rewrite Z.shiftl_mul_pow2, Z.shiftr_div_pow2 by exact Hn.
  assert (Hp : 0 < 2 ^ n) by (apply Z.pow_pos_nonneg; lia).
  split.
  - intros H. apply Z.mul_eq_0 in H as [H|H]; [|lia].
    apply Z.div_small_iff in H; lia.
  - intros H. rewrite Z.div_small by exact H. reflexivity.
Qed.

Lemma insane_values_false v p c f :
  insane_values v p c f = false <->
  (v = LIBUSB_HOTPLUG_MATCH_ANY \/ in_domain 16 v)
  /\ (p = LIBUSB_HOTPLUG_MATCH_ANY \/ in_domain 16 p)
  /\ (c = LIBUSB_HOTPLUG_MATCH_ANY \/ in_domain 8 c)
  /\ f <> NULL.
Proof.
  unfold insane_values.
  change 65535 with (Z.ones 16). change 255 with (Z.ones 8).
  pose proof (high_bits_clear 16 v ltac:(lia)) as Hv.
  pose proof (high_bits_clear 16 p ltac:(lia)) as Hq.
  pose proof (high_bits_clear 8 c ltac:(lia)) as Hc.
  rewrite !orb_false_iff, !andb_false_iff, !negb_false_iff, !Z.eqb_eq, Z.eqb_neq.
  intuition congruence.
Qed.

Lemma enumerate_devs_spec devs nc : forall w,
  let r := enumerate_devs devs nc w in
  same_store w (snd r)
  /\ held (snd r) = held w
  /\ trace (snd r) =
     trace w ++ map (fun dev => call_of w dev LIBUSB_HOTPLUG_EVENT_DEVICE_ARRIVED
                                        nc (held w))
                    (filter (fun dev =>
                               cb_matches dev LIBUSB_HOTPLUG_EVENT_DEVICE_ARRIVED nc)
                            devs).
Proof.
  induction devs as [|dev rest IH]; intros w; cbn zeta.
  - cbn. repeat split. now rewrite app_nil_r.
  - cbn [enumerate_devs]. unfold_m.
    pose proof (match_cb_store dev LIBUSB_HOTPLUG_EVENT_DEVICE_ARRIVED nc w)
      as [Hs Hh].
    pose proof (match_cb_trace dev LIBUSB_HOTPLUG_EVENT_DEVICE_ARRIVED nc w) as Ht.
    set (r1 := usbi_hotplug_match_cb dev LIBUSB_HOTPLUG_EVENT_DEVICE_ARRIVED nc w)
      in *.
    specialize (IH (snd r1)). cbn zeta in IH. destruct IH as (Is & Ih & It).
    split; [eapply same_store_trans; eauto|].
    split; [congruence|].
    rewrite It, Ht, Hh, <- app_assoc. f_equal. cbn [filter].
    rewrite (map_ext
               (fun d => call_of (snd r1) d LIBUSB_HOTPLUG_EVENT_DEVICE_ARRIVED nc
                                 (held w))
               (fun d => call_of w d LIBUSB_HOTPLUG_EVENT_DEVICE_ARRIVED nc
                                 (held w))).
    + destruct (cb_matches dev LIBUSB_HOTPLUG_EVENT_DEVICE_ARRIVED nc); reflexivity.
    + intros d. unfold call_of, ctx_or_null.
      destruct Hs as (_ & -> & _). reflexivity.
Qed.

(** The three early returns of registration leave the world untouched. *)
Lemma register_new_callback_error ctx ev fl v p c f d ok w :
  register_new_callback ctx ev fl v p c f d ok w =
  (inl (if negb (has_hotplug w) then LIBUSB_ERROR_NOT_SUPPORTED
        else if insane_values v p c f then LIBUSB_ERROR_INVALID_PARAM
             else LIBUSB_ERROR_NO_MEM), w)
  \/ (has_hotplug w = true /\ insane_values v p c f = false /\ ok = true).
Proof.
  unfold register_new_callback. unfold_m.
  destruct (has_hotplug w); cbn; [|now left].
  destruct (insane_values v p c f); cbn; [now left|].
  destruct ok; cbn; [right; auto | now left].
Qed.

Lemma register_new_callback_ok ctx ev fl v p c f d w :
  has_hotplug w = true -> insane_values v p c f = false ->
  let r := register_new_callback ctx ev fl v p c f d true w in
  let nc := new_callback_of w ctx ev fl v p c f d in
  let ctx' := cb_ctx nc in
  fst r = inr nc
  /\ registry (snd r) ctx' = nc :: registry w ctx'
  /\ usb_devs (ctxs (snd r) ctx') = usb_devs (ctxs w ctx')
  /\ open_devs (ctxs (snd r) ctx') = open_devs (ctxs w ctx')
  /\ (forall c', c' <> ctx' -> ctxs (snd r) c' = ctxs w c')
  /\ handle_id (snd r) = wrap_int (handle_id w + 1)
  /\ mem (snd r) = mem w
  /\ usbi_default_context (snd r) = usbi_default_context w
  /\ has_hotplug (snd r) = has_hotplug w
  /\ trace (snd r) =
     trace w ++
     (if negb (Z.land fl LIBUSB_HOTPLUG_ENUMERATE =? 0)
      then map (fun dev => call_of w dev LIBUSB_HOTPLUG_EVENT_DEVICE_ARRIVED nc
                             (usb_devs_lock ctx' :: hotplug_cbs_lock ctx' :: held w))
               (filter (fun dev =>
                          cb_matches dev LIBUSB_HOTPLUG_EVENT_DEVICE_ARRIVED nc)
                       (usb_devs (ctxs w ctx')))
      else [])
  /\ (held w = [] -> held (snd r) = []).
Proof.
  intros Hcap Hsane. cbn zeta.
  unfold register_new_callback, registry, new_callback_of, list_add. unfold_m.
  rewrite Hcap, Hsane. cbn [negb fst snd cb_ctx].
  set (ctx' := if ctx =? NULL then usbi_default_context w else ctx).
  change (handle_id (set_held (hotplug_cbs_lock ctx' :: held w) w))
    with (handle_id w).
  set (nc := mkCallback ctx' v p c fl ev f (handle_id w) d 0).
  set (w1 := set_ctxs _ _).
  assert (Hc1 : ctxs w1 ctx' =
                mkContext (nc :: hotplug_cbs (ctxs w ctx')) (usb_devs (ctxs w ctx'))
                          (open_devs (ctxs w ctx')))
    by (subst w1; cbn [ctxs set_ctxs]; apply upd_ctx_same).
  assert (Hc2 : forall c', c' <> ctx' -> ctxs w1 c' = ctxs w c')
    by (intros c' Hne; subst w1; cbn [ctxs set_ctxs]; now apply upd_ctx_other).
  assert (Hh1 : held w1 = hotplug_cbs_lock ctx' :: held w) by reflexivity.
  assert (Hl : unlocked (hotplug_cbs_lock ctx') (held w1) =
               unlocked (hotplug_cbs_lock ctx') (held w))
    by (rewrite Hh1; apply unlocked_cons_same).
  destruct (negb (Z.land fl LIBUSB_HOTPLUG_ENUMERATE =? 0)); cbn [fst snd].
  - match goal with
    | |- context [enumerate_devs ?l nc ?w0] =>
        pose proof (enumerate_devs_spec l nc w0) as H;
        set (r := enumerate_devs l nc w0) in *
    end.
    cbn zeta in H. destruct H as ((Hc & Hd & Hcp & Hid & Hm) & Hh & Ht).
    cbn [ctxs set_ctxs set_held handle_id held trace mem
         usbi_default_context has_hotplug] in *.
    rewrite Hc, Hc1. cbn [hotplug_cbs usb_devs open_devs].
    repeat split; try assumption; try reflexivity.
    + rewrite Hcp. exact Hcap.
    + rewrite Ht. rewrite Hc1. reflexivity.
    + intros Hw. rewrite Hh, Hh1, Hw, unlocked_cons_same.
      change (unlocked (usb_devs_lock ctx') [hotplug_cbs_lock ctx'])
        with [hotplug_cbs_lock ctx'].
      now rewrite unlocked_cons_same.
  - cbn [ctxs set_held handle_id held trace mem usbi_default_context has_hotplug].
    rewrite Hc1. cbn [hotplug_cbs usb_devs open_devs].
    repeat split; try assumption.
    + now rewrite app_nil_r.
    + intros Hw. rewrite Hl, Hw. reflexivity.
Qed.

Lemma register_spec ctx ev fl v p c f d handle ok w :
  let r := libusb_hotplug_register_callback ctx ev fl v p c f d handle ok w in
  let r0 := register_new_callback ctx ev fl v p c f d ok w in
  match fst r0 with
  | inl err => r = (err, snd r0)
  | inr nc =>
      fst r = LIBUSB_SUCCESS
      /\ ctxs (snd r) = ctxs (snd r0)
      /\ handle_id (snd r) = handle_id (snd r0)
      /\ trace (snd r) = trace (snd r0)
      /\ held (snd r) = held (snd r0)
      /\ usbi_default_context (snd r) = usbi_default_context (snd r0)
      /\ has_hotplug (snd r) = has_hotplug (snd r0)
      /\ forall a, mem (snd r) a =
                   if negb (handle =? NULL) && (a =? handle)
                   then cb_handle nc else mem (snd r0) a
  end.
Proof.
  cbn zeta. unfold libusb_hotplug_register_callback. unfold_m.
  destruct (fst (register_new_callback ctx ev fl v p c f d ok w)); [reflexivity|].
  destruct (handle =? NULL); cbn; repeat split.
Qed.

Lemma deregister_spec ctx handle w :
  let w' := snd (libusb_hotplug_deregister_callback ctx handle w) in
  let ctx' := resolve w ctx in
  (has_hotplug w = false -> w' = w)
  /\ (has_hotplug w = true ->
      registry w' ctx' = map (mark handle) (registry w ctx')
      /\ usb_devs (ctxs w' ctx') = usb_devs (ctxs w ctx')
      /\ open_devs (ctxs w' ctx') = open_devs (ctxs w ctx'))
  /\ (forall c, c <> ctx' -> ctxs w' c = ctxs w c)
  /\ handle_id w' = handle_id w
  /\ mem w' = mem w
  /\ trace w' = trace w
  /\ ustate w' = ustate w
  /\ usbi_default_context w' = usbi_default_context w
  /\ has_hotplug w' = has_hotplug w.
Proof.
  cbn zeta. unfold libusb_hotplug_deregister_callback, registry, resolve. unfold_m.
  destruct (has_hotplug w) eqn:Hcap; cbn [negb fst snd].
  - set (ctx' := if ctx =? NULL then usbi_default_context w else ctx).
    cbn [ctxs set_ctxs set_held handle_id held trace mem ustate
         usbi_default_context has_hotplug].
    rewrite !upd_ctx_same. cbn [hotplug_cbs usb_devs open_devs].
    repeat split; try discriminate; try assumption.
    intros c Hne. now apply upd_ctx_other.
  - repeat split; try discriminate; try assumption.
Qed.

Lemma deregister_all_spec ctx w :
  let w' := snd (usbi_hotplug_deregister_all ctx w) in
  registry w' ctx = []
  /\ (forall c, c <> ctx -> ctxs w' c = ctxs w c)
  /\ handle_id w' = handle_id w
  /\ trace w' = trace w.
Proof.
  cbn zeta. unfold usbi_hotplug_deregister_all, registry. unfold_m.
  cbn [ctxs set_ctxs set_held handle_id held trace].
  rewrite upd_ctx_same. repeat split.
  intros c Hne. now apply upd_ctx_other.
Qed.

Lemma calls_since_app w w' new :
  trace w' = trace w ++ new -> calls_since w w' = new.
Proof.
  unfold calls_since. intros ->.
  rewrite skipn_app, skipn_all, Nat.sub_diag. reflexivity.
Qed.

Lemma wrap_int_small z : - 2147483648 <= z <= INT_MAX -> wrap_int z = z.
Proof.
  unfold wrap_int, INT_MAX. intros H.
  rewrite Z.mod_small by lia. lia.
Qed.

Lemma filter_sublist {A} (p : A -> bool) (l : list A) : sublist (filter p l) l.
Proof.
  induction l as [|x l IH]; cbn; [apply sublist_nil|].
  destruct (p x); [apply sublist_cons | apply sublist_skip]; exact IH.
Qed.

Lemma sorted_handles_inj (l : list libusb_hotplug_callback) a b :
  StronglySorted Z.gt (map cb_handle l) ->
  In a l -> In b l -> cb_handle a = cb_handle b -> a = b.
Proof.
  induction l as [|x l IH]; cbn; intros HS Ha Hb Heq; [contradiction|].
  inversion HS as [|? ? HS' HF]; subst.
  rewrite Forall_forall in HF.
  destruct Ha as [->|Ha], Hb as [->|Hb]; auto.
  - specialize (HF (cb_handle b) (in_map _ _ _ Hb)). lia.
  - specialize (HF (cb_handle a) (in_map _ _ _ Ha)). lia.
Qed.

Lemma map_handle_mark h l : map cb_handle (map (mark h) l) = map cb_handle l.
Proof.
  rewrite map_map. apply map_ext. intros e. unfold mark.
  destruct (h =? cb_handle e); reflexivity.
Qed.

Lemma in_mark h l e' :
  In e' (map (mark h) l) ->
  exists e, In e l /\ cb_handle e' = cb_handle e
            /\ (needs_free e <> 0 -> needs_free e' <> 0).
Proof.
  intros H. apply in_map_iff in H as (e & <- & Hin). exists e.
  unfold mark. destruct (h =? cb_handle e); cbn; repeat split; auto.
  intros _. discriminate.
Qed.

(** A registration either returns early and changes nothing, or links the
    new entry at the head of its registry. *)
Lemma exec_register_cases ctx ev fl v p c f d handle ok w :
  let w' := exec (Register ctx ev fl v p c f d handle ok) w in
  let nc := new_callback_of w ctx ev fl v p c f d in
  (w' = w
   /\ exists err, register_new_callback ctx ev fl v p c f d ok w = (inl err, w))
  \/ (has_hotplug w = true /\ insane_values v p c f = false /\ ok = true
      /\ fst (register_new_callback ctx ev fl v p c f d ok w) = inr nc
      /\ registry w' (cb_ctx nc) = nc :: registry w (cb_ctx nc)
      /\ (forall c', c' <> cb_ctx nc -> ctxs w' c' = ctxs w c')
      /\ usb_devs (ctxs w' (cb_ctx nc)) = usb_devs (ctxs w (cb_ctx nc))
      /\ open_devs (ctxs w' (cb_ctx nc)) = open_devs (ctxs w (cb_ctx nc))
      /\ handle_id w' = wrap_int (handle_id w + 1)
      /\ trace w' = trace w ++ enumeration_calls w fl nc).
Proof.
  cbn zeta. unfold exec.
  pose proof (register_spec ctx ev fl v p c f d handle ok w) as Hr.
  cbn zeta in Hr.
  destruct (register_new_callback_error ctx ev fl v p c f d ok w)
    as [He|(Hcap & Hsane & ->)].
  - left. rewrite He in Hr. cbn [fst snd] in Hr. rewrite Hr. split; eauto.
  - right.
    pose proof (register_new_callback_ok ctx ev fl v p c f d w Hcap Hsane) as H.
    cbn zeta in H.
    destruct H as (H1 & H2 & H3 & H4 & H5 & H6 & H7 & H8 & H9 & H10 & H11).
    rewrite H1 in Hr.
    destruct Hr as (R1 & R2 & R3 & R4 & R5 & R6 & R7 & R8).
    unfold registry in *. rewrite R2, R3, R4.
    repeat split; try assumption.
Qed.

Lemma calls_since_refl w : calls_since w w = [].
Proof. apply calls_since_app. now rewrite app_nil_r. Qed.

Lemma exec_dispatch_calls dev event w :
  calls_since w (exec (Dispatch dev event) w) =
  map (fun cb => call_of w dev event cb
                   (unlocked (hotplug_cbs_lock (dev_ctx dev)) (held w)))
      (filter (cb_matches dev event) (registry w (dev_ctx dev))).
Proof.
  apply calls_since_app. cbn [exec].
  pose proof (hotplug_match_spec dev event w) as H. cbn zeta in H.
  apply H.
Qed.

Lemma cb_matches_active dev event cb : cb_matches dev event cb = true -> needs_free cb = 0.
Proof.
  unfold cb_matches. rewrite !andb_true_iff. intros [[H _] _].
  now apply Z.eqb_eq.
Qed.

(** One operation keeps a retired handle retired and never calls it. *)
Lemma exec_retired h op w :
  1 <= handle_id w < INT_MAX ->
  retired h w ->
  retired h (exec op w)
  /\ Forall (fun k => cb_handle (call_cb k) <> h /\ needs_free (call_cb k) = 0)
            (calls_since w (exec op w))
  /\ handle_id w <= handle_id (exec op w) <= handle_id w + 1.
Proof.
  intros Hrange [Hlt Hpend].
  destruct op as [dev event|ctx ev fl v p c f d handle ok|ctx handle|ctx].
  - pose proof (hotplug_match_spec dev event w) as H. cbn zeta in H.
    destruct H as (Hsub & _ & Hoth & _ & _ & (_ & _ & Hid & _) & _ & _).
    rewrite exec_dispatch_calls. cbn [exec]. rewrite Hid.
    split; [split; [lia|]|split; [|lia]].
    + intros c0 e Hin. apply Hpend with (c := c0).
      destruct (Z.eq_dec c0 (dev_ctx dev)) as [->|Hne].
      * eapply sublist_In; eauto.
      * unfold registry in *. now rewrite Hoth in Hin.
    + apply Forall_forall. intros k Hk.
      apply in_map_iff in Hk as (cb & <- & Hcb).
      apply filter_In in Hcb as [Hin Hm]. cbn [call_of call_cb].
      apply cb_matches_active in Hm. split; [|exact Hm].
      intros Heq. exact (Hpend _ _ Hin Heq Hm).
  - pose proof (exec_register_cases ctx ev fl v p c f d handle ok w) as H.
    cbn zeta in H. destruct H as [[-> _]|H].
    + rewrite calls_since_refl. repeat split; auto; lia.
    + destruct H as (_ & _ & _ & _ & Hreg & Hoth & _ & _ & Hid & Htr).
      set (nc := new_callback_of w ctx ev fl v p c f d) in *.
      rewrite (calls_since_app _ _ _ Htr).
      rewrite wrap_int_small in Hid by (unfold INT_MAX in *; lia).
      rewrite Hid.
      split; [split; [lia|]|split; [|lia]].
      * intros c0 e Hin Heq.
        destruct (Z.eq_dec c0 (cb_ctx nc)) as [->|Hne].
        -- rewrite Hreg in Hin. destruct Hin as [<-|Hin].
           ++ cbn in Heq. lia.
           ++ eapply Hpend; eauto.
        -- unfold registry in *. rewrite Hoth in Hin by exact Hne.
           eapply Hpend; eauto.
      * unfold enumeration_calls.
        destruct (negb (Z.land fl LIBUSB_HOTPLUG_ENUMERATE =? 0)); [|constructor].
        apply Forall_forall. intros k Hk.
        apply in_map_iff in Hk as (dev & <- & _). cbn. split; [lia|reflexivity].
  - pose proof (deregister_spec ctx handle w) as H. cbn zeta in H.
    destruct H as (Hno & Hyes & Hoth & Hid & _ & Htr & _).
    cbn [exec]. rewrite Hid.
    rewrite (calls_since_app w _ []) by (now rewrite app_nil_r).
    split; [split; [lia|]|split; [constructor|lia]].
    intros c0 e Hin Heq.
    destruct (has_hotplug w) eqn:Hcap.
    + destruct (Hyes eq_refl) as (Hreg & _).
      destruct (Z.eq_dec c0 (resolve w ctx)) as [->|Hne].
      * rewrite Hreg in Hin. apply in_mark in Hin as (e0 & Hin0 & Hh & Hnf).
        apply Hnf. eapply Hpend; eauto. congruence.
      * unfold registry in *. rewrite Hoth in Hin by exact Hne.
        eapply Hpend; eauto.
    + rewrite (Hno eq_refl) in Hin. eapply Hpend; eauto.
  - pose proof (deregister_all_spec ctx w) as H. cbn zeta in H.
    destruct H as (Hnil & Hoth & Hid & Htr).
    cbn [exec]. rewrite Hid.
    rewrite (calls_since_app w _ []) by (now rewrite app_nil_r).
    split; [split; [lia|]|split; [constructor|lia]].
    intros c0 e Hin Heq.
    destruct (Z.eq_dec c0 ctx) as [->|Hne].
    + rewrite Hnil in Hin. contradiction.
    + unfold registry in *. rewrite Hoth in Hin by exact Hne.
      eapply Hpend; eauto.
Qed.

Lemma exec_trace_extends op w : exists new, trace (exec op w) = trace w ++ new.
Proof.
  destruct op as [dev event|ctx ev fl v p c f d handle ok|ctx handle|ctx].
  - pose proof (hotplug_match_spec dev event w) as H. cbn zeta in H.
    destruct H as (_ & _ & _ & _ & _ & _ & Htr & _). eauto.
  - pose proof (exec_register_cases ctx ev fl v p c f d handle ok w) as H.
    cbn zeta in H. destruct H as [[-> _]|H].
    + exists []. now rewrite app_nil_r.
    + destruct H as (_ & _ & _ & _ & _ & _ & _ & _ & _ & Htr). eauto.
  - pose proof (deregister_spec ctx handle w) as H. cbn zeta in H.
    destruct H as (_ & _ & _ & _ & _ & Htr & _).
    exists []. cbn [exec]. now rewrite Htr, app_nil_r.
  - pose proof (deregister_all_spec ctx w) as H. cbn zeta in H.
    destruct H as (_ & _ & _ & Htr).
    exists []. cbn [exec]. now rewrite Htr, app_nil_r.
Qed.

Lemma run_trace_extends ops : forall w, exists new, trace (run ops w) = trace w ++ new.
Proof.
  induction ops as [|op ops IH]; intros w; cbn.
  - exists []. now rewrite app_nil_r.
  - destruct (exec_trace_extends op w) as [n1 H1].
    destruct (IH (exec op w)) as [n2 H2].
    exists (n1 ++ n2). unfold run in H2. now rewrite H2, H1, app_assoc.
Qed.

Lemma calls_since_step op ops w :
  calls_since w (run (op :: ops) w) =
  calls_since w (exec op w) ++ calls_since (exec op w) (run ops (exec op w)).
Proof.
  destruct (exec_trace_extends op w) as [n1 H1].
  destruct (run_trace_extends ops (exec op w)) as [n2 H2].
  rewrite (calls_since_app _ _ _ H1), (calls_since_app _ _ _ H2).
  apply calls_since_app. change (run (op :: ops) w) with (run ops (exec op w)).
  now rewrite H2, H1, app_assoc.
Qed.

(** The same over any run that does not exhaust the counter. *)
Lemma run_retired h ops : forall w,
  1 <= handle_id w ->
  handle_id w + Z.of_nat (length ops) <= INT_MAX ->
  retired h w ->
  retired h (run ops w)
  /\ Forall (fun k => cb_handle (call_cb k) <> h /\ needs_free (call_cb k) = 0)
            (calls_since w (run ops w)).
Proof.
  induction ops as [|op ops IH]; intros w Hlo Hhi Hret.
  - cbn [run fold_left]. rewrite calls_since_refl. split; [exact Hret|constructor].
  - cbn [length] in Hhi.
    destruct (exec_retired h op w) as (Hret' & Hcalls & Hid); [lia|exact Hret|].
    destruct (IH (exec op w)) as (Hret'' & Hcalls''); [lia|lia|exact Hret'|].
    rewrite calls_since_step. split.
    + exact Hret''.
    + apply Forall_app. split; assumption.
Qed.

(** ** The registry invariant *)

Lemma wf_initial cap dflt (u : user_state) : wf (initial_world cap dflt u).
Proof.
  repeat split; cbn; intros; try constructor; contradiction.
Qed.

Lemma wf_exec op w :
  1 <= handle_id w < INT_MAX -> wf w -> wf (exec op w).
Proof.
  intros Hrange (Hsort & Hbelow & Hdisj).
  destruct op as [dev event|ctx ev fl v p c f d handle ok|ctx handle|ctx].
  - pose proof (hotplug_match_spec dev event w) as H. cbn zeta in H.
    destruct H as (Hsub & _ & Hoth & _ & _ & (_ & _ & Hid & _) & _ & _).
    cbn [exec].
    assert (Hin : forall c0 e, In e (registry (snd (usbi_hotplug_match dev event w)) c0)
                               -> In e (registry w c0)).
    { intros c0 e He. destruct (Z.eq_dec c0 (dev_ctx dev)) as [->|Hne].
      - eapply sublist_In; eauto.
      - unfold registry in *. now rewrite Hoth in He. }
    split; [|split].
    + intros c0. destruct (Z.eq_dec c0 (dev_ctx dev)) as [->|Hne].
      * eapply sublist_sorted; [apply sublist_map; exact Hsub|apply Hsort].
      * unfold registry in *. rewrite Hoth by exact Hne. apply Hsort.
    + intros c0 e He. rewrite Hid. eauto.
    + intros c1 c2 e1 e2 H1 H2. eauto.
  - pose proof (exec_register_cases ctx ev fl v p c f d handle ok w) as H.
    cbn zeta in H. destruct H as [[-> _]|H]; [repeat split; assumption|].
    destruct H as (_ & _ & _ & _ & Hreg & Hoth & _ & _ & Hid & _).
    set (nc := new_callback_of w ctx ev fl v p c f d) in *.
    rewrite wrap_int_small in Hid by (unfold INT_MAX in *; lia).
    assert (Hin : forall c0 e,
               In e (registry (exec (Register ctx ev fl v p c f d handle ok) w) c0) ->
               (e = nc /\ c0 = cb_ctx nc) \/ In e (registry w c0)).
    { intros c0 e He. destruct (Z.eq_dec c0 (cb_ctx nc)) as [->|Hne].
      - rewrite Hreg in He. destruct He as [<-|He]; auto.
      - unfold registry in *. rewrite Hoth in He by exact Hne. auto. }
    split; [|split].
    + intros c0. destruct (Z.eq_dec c0 (cb_ctx nc)) as [->|Hne].
      * rewrite Hreg. cbn [map]. constructor; [apply Hsort|].
        apply Forall_forall. intros x Hx.
        apply in_map_iff in Hx as (e & <- & He).
        specialize (Hbelow _ _ He). cbn. lia.
      * unfold registry in *. rewrite Hoth by exact Hne. apply Hsort.
    + intros c0 e He. rewrite Hid.
      destruct (Hin _ _ He) as [[-> _]|He']; [cbn; lia|].
      specialize (Hbelow _ _ He'). lia.
    + intros c1 c2 e1 e2 H1 H2 Heq.
      destruct (Hin _ _ H1) as [[-> ->]|H1'], (Hin _ _ H2) as [[-> ->]|H2'];
        auto.
      * specialize (Hbelow _ _ H2'). cbn in Heq. lia.
      * specialize (Hbelow _ _ H1'). cbn in Heq. lia.
      * eauto.
  - pose proof (deregister_spec ctx handle w) as H. cbn zeta in H.
    destruct H as (Hno & Hyes & Hoth & Hid & _).
    cbn [exec].
    destruct (has_hotplug w) eqn:Hcap;
      [|rewrite (Hno eq_refl); repeat split; assumption].
    destruct (Hyes eq_refl) as (Hreg & _).
    assert (Hin : forall c0 e,
               In e (registry (snd (libusb_hotplug_deregister_callback ctx handle w)) c0)
               -> exists e0, In e0 (registry w c0) /\ cb_handle e = cb_handle e0).
    { intros c0 e He. destruct (Z.eq_dec c0 (resolve w ctx)) as [->|Hne].
      - rewrite Hreg in He. apply in_mark in He as (e0 & ? & ? & _). eauto.
      - unfold registry in *. rewrite Hoth in He by exact Hne. eauto. }
    split; [|split].
    + intros c0. destruct (Z.eq_dec c0 (resolve w ctx)) as [->|Hne].
      * rewrite Hreg, map_handle_mark. apply Hsort.
      * unfold registry in *. rewrite Hoth by exact Hne. apply Hsort.
    + intros c0 e He. rewrite Hid.
      destruct (Hin _ _ He) as (e0 & He0 & ->). eauto.
    + intros c1 c2 e1 e2 H1 H2 Heq.
      destruct (Hin _ _ H1) as (a & Ha & Ea), (Hin _ _ H2) as (b & Hb & Eb).
      eapply Hdisj; eauto. congruence.
  - pose proof (deregister_all_spec ctx w) as H. cbn zeta in H.
    destruct H as (Hnil & Hoth & Hid & _).
    cbn [exec].
    assert (Hin : forall c0 e,
               In e (registry (snd (usbi_hotplug_deregister_all ctx w)) c0)
               -> In e (registry w c0)).
    { intros c0 e He. destruct (Z.eq_dec c0 ctx) as [->|Hne].
      - rewrite Hnil in He. contradiction.
      - unfold registry in *. now rewrite Hoth in He. }
    split; [|split].
    + intros c0. destruct (Z.eq_dec c0 ctx) as [->|Hne].
      * rewrite Hnil. constructor.
      * unfold registry in *. rewrite Hoth by exact Hne. apply Hsort.
    + intros c0 e He. rewrite Hid. eauto.
    + intros c1 c2 e1 e2 H1 H2. eauto.
Qed.

Lemma exec_handle_id op w :
  match op with
  | Register ctx ev fl v p c f d handle ok =>
      match fst (register_new_callback ctx ev fl v p c f d ok w) with
      | inr nc => cb_handle nc = handle_id w
                  /\ handle_id (exec op w) = wrap_int (handle_id w + 1)
      | inl _ => handle_id (exec op w) = handle_id w
      end
  | _ => handle_id (exec op w) = handle_id w
  end.
Proof.
  destruct op as [dev event|ctx ev fl v p c f d handle ok|ctx handle|ctx].
  - pose proof (hotplug_match_spec dev event w) as H. cbn zeta in H. apply H.
  - pose proof (exec_register_cases ctx ev fl v p c f d handle ok w) as H.
    cbn zeta in H. destruct H as [[-> [err ->]]|H]; [reflexivity|].
    destruct H as (_ & _ & _ & -> & _ & _ & _ & _ & Hid & _).
    split; [reflexivity|exact Hid].
  - apply deregister_spec.
  - apply deregister_all_spec.
Qed.

(** X11.  The registry invariant is kept along every run that stays within
    the counter's range: in each registry the handles strictly decrease
    from the head, every linked handle lies below the counter, and no
    handle is linked in two contexts. *)
Lemma wf_run ops : forall w,
  1 <= handle_id w ->
  handle_id w + Z.of_nat (length ops) <= INT_MAX ->
  wf w -> wf (run ops w).
Proof.
  induction ops as [|op ops IH]; intros w Hlo Hhi Hwf; [exact Hwf|].
  cbn [length] in Hhi. change (run (op :: ops) w) with (run ops (exec op w)).
  pose proof (exec_handle_id op w) as Hid.
  assert (Hstep : handle_id w <= handle_id (exec op w) <= handle_id w + 1).
  { destruct op as [dev event|ctx ev fl v p c f d handle ok|ctx handle|ctx];
      try (rewrite Hid; lia).
    destruct (fst (register_new_callback ctx ev fl v p c f d ok w));
      [rewrite Hid; lia|].
    destruct Hid as [_ Hid].
    rewrite wrap_int_small in Hid by (unfold INT_MAX in *; lia). lia. }
  apply IH; [lia|lia|]. apply wf_exec; [lia|exact Hwf].
Qed.

Lemma filter_accepts_false dev cb :
  filter_accepts dev cb = false <-> filter_mismatch dev cb.
Proof.
  unfold filter_accepts, filter_mismatch.
  rewrite !andb_false_iff, !orb_false_iff, !Z.eqb_neq. tauto.
Qed.

Lemma filter_accepts_true dev cb :
  filter_accepts dev cb = true <-> ~ filter_mismatch dev cb.
Proof.
  rewrite <- filter_accepts_false. destruct (filter_accepts dev cb); intuition congruence.
Qed.

(** ** The claims *)

(** C1.  The matcher decides in this order: a PENDING_REMOVAL entry
    ([needs_free] set) gives REMOVE without any callback invocation; else
    an event outside the entry's mask gives NO_MATCH; else a non-ANY
    vendor, product or class field that differs from the device's gives
    NO_MATCH; otherwise the callback is invoked with (null if the device's
    context is the default context, else that context; the device; the
    event; the entry's user data), and a non-zero return is REMOVE, a zero
    return MATCHED_KEEP. *)
Theorem matcher_decision_order dev event hotplug_cb w :
  let res := usbi_hotplug_match_cb dev event hotplug_cb w in
  (needs_free hotplug_cb <> 0 ->
   res = (1, w) /\ matcher_outcome w res = REMOVE)
  /\ (needs_free hotplug_cb = 0 ->
      Z.land (cb_events hotplug_cb) event = 0 ->
      res = (0, w) /\ matcher_outcome w res = NO_MATCH)
  /\ (needs_free hotplug_cb = 0 ->
      Z.land (cb_events hotplug_cb) event <> 0 ->
      filter_mismatch dev hotplug_cb ->
      res = (0, w) /\ matcher_outcome w res = NO_MATCH)
  /\ (needs_free hotplug_cb = 0 ->
      Z.land (cb_events hotplug_cb) event <> 0 ->
      ~ filter_mismatch dev hotplug_cb ->
      let ctx_arg :=
        if dev_ctx dev =? usbi_default_context w then NULL else dev_ctx dev in
      let out := call_fn (cb_fn hotplug_cb) ctx_arg dev event
                         (user_data hotplug_cb) (ustate w) in
      fst res = fst out
      /\ ustate (snd res) = snd out
      /\ trace (snd res) =
         trace w ++ [mkCall hotplug_cb ctx_arg dev event (user_data hotplug_cb)
                            (held w)]
      /\ same_store w (snd res)
      /\ (fst out <> 0 -> matcher_outcome w res = REMOVE)
      /\ (fst out = 0 -> matcher_outcome w res = MATCHED_KEEP)).
Proof.
  cbn zeta. rewrite match_cb_eq. unfold cb_matches, matcher_outcome.
  split; [|split; [|split]].
  - intros H. apply Z.eqb_neq in H. rewrite H. cbn. split; reflexivity.
  - intros H1 H2. apply Z.eqb_eq in H1, H2. rewrite H1, H2. cbn.
    rewrite Nat.eqb_refl. split; reflexivity.
  - intros H1 H2 H3. apply Z.eqb_eq in H1. apply Z.eqb_neq in H2.
    apply filter_accepts_false in H3. rewrite H1, H2, H3. cbn.
    rewrite Nat.eqb_refl. split; reflexivity.
  - intros H1 H2 H3. apply Z.eqb_eq in H1. apply Z.eqb_neq in H2.
    apply filter_accepts_true in H3. rewrite H1, H2, H3.
    cbn [negb andb]. unfold invoke, ctx_or_null.
    cbn [fst snd trace ustate set_trace_ustate].
    set (out := call_fn _ _ _ _ _ _).
    repeat split.
    + intros H. destruct (Z.eqb_spec (fst out) 0) as [E|E]; [contradiction|].
      reflexivity.
    + intros H. destruct (Z.eqb_spec (fst out) 0) as [E|E]; [|contradiction].
      cbn [negb]. rewrite length_app. cbn [length].
      destruct (Nat.eqb_spec (length (trace w) + 1) (length (trace w))) as [E'|E'];
        [lia|reflexivity].
Qed.

Lemma wf_retired w c e :
  wf w -> In e (registry w c) -> needs_free e <> 0 -> retired (cb_handle e) w.
Proof.
  intros (Hsort & Hbelow & Hdisj) Hin Hnf. split; [eauto|].
  intros c' e' Hin' Heq.
  assert (c' = c) by eauto. subst c'.
  assert (e' = e) by (eapply sorted_handles_inj; eauto). now subst e'.
Qed.

(** C2.  Once an entry is PENDING_REMOVAL ([needs_free] set), no later
    operation (dispatch, registration with or without enumeration,
    deregistration, teardown) invokes its callback, and the entry never
    becomes active again: it stays pending until it is unlinked.  A
    dispatch pass over its context unlinks it, and so does the teardown
    of the context. *)
Theorem pending_removal_is_final ops w c e :
  wf w ->
  1 <= handle_id w ->
  handle_id w + Z.of_nat (length ops) <= INT_MAX ->
  In e (registry w c) ->
  needs_free e <> 0 ->
  Forall (fun k => cb_handle (call_cb k) <> cb_handle e /\ call_cb k <> e)
         (calls_since w (run ops w))
  /\ (forall c' e', In e' (registry (run ops w) c') ->
                    cb_handle e' = cb_handle e -> needs_free e' <> 0)
  /\ (forall dev event e',
         dev_ctx dev = c ->
         In e' (registry (exec (Dispatch dev event) w) c) ->
         cb_handle e' <> cb_handle e /\ needs_free e' = 0)
  /\ registry (exec (DeregisterAll c) w) c = [].
Proof.
  intros Hwf Hlo Hhi Hin Hnf.
  pose proof (wf_retired w c e Hwf Hin Hnf) as Hret.
  destruct (run_retired (cb_handle e) ops w Hlo Hhi Hret) as ((_ & Hpend) & Hcalls).
  split; [|split; [|split]].
  - eapply Forall_impl; [|exact Hcalls]. cbn beta.
    intros k [Hh Hz]. split; [exact Hh|]. intros Heq. rewrite Heq in Hz.
    contradiction.
  - exact Hpend.
  - intros dev event e' <- Hin'.
    pose proof (hotplug_match_spec dev event w) as H. cbn zeta in H.
    destruct H as (Hsub & Hact & _). cbn [exec] in Hin'.
    rewrite Forall_forall in Hact. specialize (Hact _ Hin').
    split; [|exact Hact].
    intros Heq. destruct Hwf as (Hsort & _ & _).
    assert (e' = e).
    { eapply sorted_handles_inj; eauto. eapply sublist_In; eauto. }
    subst e'. contradiction.
  - apply deregister_all_spec.
Qed.

(** X9.  The mutexes held when a callback runs.  A thread that enters holding no
    mutex runs the callbacks of a dispatch pass with no mutex held; the
    callbacks of a registration-time enumeration run with the device-list
    mutex and the registry mutex of the context held.  The open-handle
    mutex is held on neither path. *)
Lemma callback_locks w :
  held w = [] ->
  (forall dev event,
      Forall (fun k => call_held k = [] /\ under_guard k = false)
             (calls_since w (exec (Dispatch dev event) w)))
  /\ (forall ctx ev fl v p c f d handle ok,
         Forall (fun k => call_held k = [usb_devs_lock (resolve w ctx);
                                         hotplug_cbs_lock (resolve w ctx)]
                          /\ under_guard k = true)
                (calls_since w (exec (Register ctx ev fl v p c f d handle ok) w))).
Proof.
  intros Hheld. split.
  - intros dev event. rewrite exec_dispatch_calls, Hheld.
    apply Forall_forall. intros k Hk.
    apply in_map_iff in Hk as (cb & <- & _). split; reflexivity.
  - intros ctx ev fl v p c f d handle ok.
    pose proof (exec_register_cases ctx ev fl v p c f d handle ok w) as H.
    cbn zeta in H. destruct H as [[-> _]|H].
    + rewrite calls_since_refl. constructor.
    + destruct H as (_ & _ & _ & _ & _ & _ & _ & _ & _ & Htr).
      rewrite (calls_since_app _ _ _ Htr). unfold enumeration_calls.
      destruct (negb (Z.land fl LIBUSB_HOTPLUG_ENUMERATE =? 0)); [|constructor].
      apply Forall_forall. intros k Hk.
      apply in_map_iff in Hk as (dev & <- & _).
      rewrite Hheld. split; reflexivity.
Qed.

(** C5, as the code has it.  A dispatch pass calls the matching entries in
    the order of the registry list, head first; a successful registration
    links its entry at the head; so in a well-formed world a pass visits
    the entries from the most recently registered (highest handle) to the
    earliest. *)
Theorem dispatch_visits_newest_first w :
  (forall dev event,
      map call_cb (calls_since w (exec (Dispatch dev event) w)) =
      filter (cb_matches dev event) (registry w (dev_ctx dev)))
  /\ (forall ctx ev fl v p c f d handle,
         has_hotplug w = true ->
         insane_values v p c f = false ->
         let nc := new_callback_of w ctx ev fl v p c f d in
         registry (exec (Register ctx ev fl v p c f d handle true) w) (cb_ctx nc) =
         nc :: registry w (cb_ctx nc))
  /\ (wf w -> forall dev event, newest_first w dev event).
Proof.
  split; [|split].
  - intros dev event. rewrite exec_dispatch_calls, map_map. cbn [call_of call_cb].
    apply map_id.
  - intros ctx ev fl v p c f d handle Hcap Hsane.
    pose proof (exec_register_cases ctx ev fl v p c f d handle true w) as H.
    cbn zeta in H. destruct H as [[_ [err He]]|H].
    + pose proof (register_new_callback_ok ctx ev fl v p c f d w Hcap Hsane) as H.
      cbn zeta in H. destruct H as (H & _). rewrite He in H. discriminate.
    + apply H.
  - intros (Hsort & _) dev event. unfold newest_first, called_handles.
    rewrite exec_dispatch_calls, map_map. cbn [call_of call_cb].
    eapply sublist_sorted; [|apply (Hsort (dev_ctx dev))].
    apply sublist_map, filter_sublist.
Qed.

(** C6.  A dispatch with event LEFT for device D marks every open handle
    of D's context whose device pointer is D as disconnected and leaves
    the other handles as they are, whatever the registry holds; a dispatch
    with any other event (ARRIVED in particular) changes no handle; the
    handles of other contexts are never touched. *)
Theorem left_event_disconnects dev event w :
  let w' := exec (Dispatch dev event) w in
  (event = LIBUSB_HOTPLUG_EVENT_DEVICE_LEFT ->
   open_devs (ctxs w' (dev_ctx dev)) =
   map (disconnect_if_bound dev) (open_devs (ctxs w (dev_ctx dev))))
  /\ (event <> LIBUSB_HOTPLUG_EVENT_DEVICE_LEFT ->
      forall c, open_devs (ctxs w' c) = open_devs (ctxs w c))
  /\ (forall c, c <> dev_ctx dev -> open_devs (ctxs w' c) = open_devs (ctxs w c))
  /\ (forall h, hdl_dev h = dev_addr dev ->
                disconnect_if_bound dev h = mkHandle (hdl_dev h) true)
  /\ (forall h, hdl_dev h <> dev_addr dev -> disconnect_if_bound dev h = h).
Proof.
  cbn zeta. cbn [exec].
  pose proof (hotplug_match_spec dev event w) as H. cbn zeta in H.
  destruct H as (_ & _ & Hoth & _ & Hopen & _).
  split; [|split; [|split; [|split]]].
  - intros ->. rewrite Hopen. reflexivity.
  - intros Hne c. destruct (Z.eq_dec c (dev_ctx dev)) as [->|Hc].
    + rewrite Hopen.
      destruct (Z.eqb_spec LIBUSB_HOTPLUG_EVENT_DEVICE_LEFT event); congruence.
    + now rewrite Hoth.
  - intros c Hc. now rewrite Hoth.
  - intros h Hh. unfold disconnect_if_bound. rewrite <- Hh, Z.eqb_refl. reflexivity.
  - intros h Hh. unfold disconnect_if_bound.
    destruct (Z.eqb_spec (dev_addr dev) (hdl_dev h)); congruence.
Qed.

Lemma insane_values_true v p c f :
  f = NULL
  \/ (v <> LIBUSB_HOTPLUG_MATCH_ANY /\ ~ in_domain 16 v)
  \/ (p <> LIBUSB_HOTPLUG_MATCH_ANY /\ ~ in_domain 16 p)
  \/ (c <> LIBUSB_HOTPLUG_MATCH_ANY /\ ~ in_domain 8 c) ->
  insane_values v p c f = true.
Proof.
  intros H. destruct (insane_values v p c f) eqn:E; [reflexivity|].
  apply insane_values_false in E. unfold valid_params in *. tauto.
Qed.

(** C7.  Registration returns NOT_SUPPORTED when the hotplug capability
    is absent; with the capability, INVALID_PARAM when the callback is
    missing or a filter field that is not ANY lies outside its domain
    (16 bits for vendor and product, 8 bits for class); with valid
    parameters, NO_MEM when the allocation fails.  In each of these cases,
    and whenever the result is not SUCCESS, the world is left as it was,
    so no registry gains an entry. *)
Theorem register_errors ctx ev fl v p c f d handle ok w :
  let r := libusb_hotplug_register_callback ctx ev fl v p c f d handle ok w in
  (has_hotplug w = false -> r = (LIBUSB_ERROR_NOT_SUPPORTED, w))
  /\ (has_hotplug w = true ->
      f = NULL
      \/ (v <> LIBUSB_HOTPLUG_MATCH_ANY /\ ~ in_domain 16 v)
      \/ (p <> LIBUSB_HOTPLUG_MATCH_ANY /\ ~ in_domain 16 p)
      \/ (c <> LIBUSB_HOTPLUG_MATCH_ANY /\ ~ in_domain 8 c) ->
      r = (LIBUSB_ERROR_INVALID_PARAM, w))
  /\ (has_hotplug w = true -> valid_params v p c f -> ok = false ->
      r = (LIBUSB_ERROR_NO_MEM, w))
  /\ (fst r <> LIBUSB_SUCCESS ->
      snd r = w /\ forall c0, registry (snd r) c0 = registry w c0).
Proof.
  cbn zeta.
  pose proof (register_spec ctx ev fl v p c f d handle ok w) as Hr.
  cbn zeta in Hr.
  destruct (register_new_callback_error ctx ev fl v p c f d ok w)
    as [He|(Hcap & Hsane & ->)].
  - rewrite He in Hr. cbn [fst snd] in Hr. rewrite Hr.
    split; [|split; [|split]].
    + intros ->. reflexivity.
    + intros -> Hbad. now rewrite (insane_values_true _ _ _ _ Hbad).
    + intros -> Hval ->. apply insane_values_false in Hval. rewrite Hval.
      cbn [negb].
      destruct (register_new_callback_error ctx ev fl v p c f d false w)
        as [_|(_ & _ & Hf)]; [reflexivity|discriminate].
    + intros _. split; reflexivity.
  - pose proof (register_new_callback_ok ctx ev fl v p c f d w Hcap Hsane) as H.
    cbn zeta in H. destruct H as (H1 & _). rewrite H1 in Hr.
    destruct Hr as (Hs & _).
    split; [|split; [|split]].
    + congruence.
    + intros _ Hbad. rewrite (insane_values_true _ _ _ _ Hbad) in Hsane.
      discriminate.
    + discriminate.
    + congruence.
Qed.

Lemma mark_fields handle e :
  mark handle e =
  if cb_handle e =? handle
  then mkCallback (cb_ctx e) (vendor_id e) (product_id e) (dev_class e)
                  (cb_flags e) (cb_events e) (cb_fn e) (cb_handle e)
                  (user_data e) 1
  else e.
Proof.
  unfold mark, set_needs_free. rewrite (Z.eqb_sym handle). reflexivity.
Qed.

(** C8.  Deregistration returns nothing and cannot fail.  Without the
    hotplug capability it leaves the world as it is; when no entry of the
    context carries the handle, every registry is unchanged; otherwise
    each entry of the context that carries the handle keeps its place and
    its nine other fields and has [needs_free] equal to 1 afterwards
    (PENDING_REMOVAL), and every other entry is unchanged.  No entry is
    unlinked and no callback runs. *)
Theorem deregister_marks_only ctx handle w :
  let w' := exec (Deregister ctx handle) w in
  let ctx' := resolve w ctx in
  (has_hotplug w = false -> w' = w)
  /\ ((forall e, In e (registry w ctx') -> cb_handle e <> handle) ->
      forall c, registry w' c = registry w c)
  /\ (has_hotplug w = true ->
      registry w' ctx' =
      map (fun e =>
             if cb_handle e =? handle
             then mkCallback (cb_ctx e) (vendor_id e) (product_id e) (dev_class e)
                             (cb_flags e) (cb_events e) (cb_fn e) (cb_handle e)
                             (user_data e) 1
             else e)
          (registry w ctx'))
  /\ (has_hotplug w = true ->
      forall e', In e' (registry w' ctx') -> cb_handle e' = handle ->
                 needs_free e' = 1)
  /\ (has_hotplug w = true ->
      forall e, In e (registry w ctx') -> cb_handle e = handle ->
                exists e', In e' (registry w' ctx')
                           /\ needs_free e' = 1
                           /\ cb_ctx e' = cb_ctx e /\ vendor_id e' = vendor_id e
                           /\ product_id e' = product_id e
                           /\ dev_class e' = dev_class e
                           /\ cb_flags e' = cb_flags e /\ cb_events e' = cb_events e
                           /\ cb_fn e' = cb_fn e /\ cb_handle e' = cb_handle e
                           /\ user_data e' = user_data e)
  /\ (forall c, c <> ctx' -> registry w' c = registry w c)
  /\ (forall c, length (registry w' c) = length (registry w c))
  /\ trace w' = trace w
  /\ handle_id w' = handle_id w.
Proof.
  cbn zeta. cbn [exec].
  pose proof (deregister_spec ctx handle w) as H. cbn zeta in H.
  destruct H as (Hno & Hyes & Hoth & Hid & _ & Htr & _).
  assert (Hmark_ne : forall e, cb_handle e <> handle -> mark handle e = e).
  { intros e He. unfold mark.
    destruct (Z.eqb_spec handle (cb_handle e)); congruence. }
  assert (Hother : forall c, c <> resolve w ctx ->
              registry (snd (libusb_hotplug_deregister_callback ctx handle w)) c
              = registry w c).
  { intros c Hc. unfold registry. now rewrite Hoth. }
  assert (Hmap : has_hotplug w = true ->
            registry (snd (libusb_hotplug_deregister_callback ctx handle w))
                     (resolve w ctx) =
            map (fun e =>
                   if cb_handle e =? handle
                   then mkCallback (cb_ctx e) (vendor_id e) (product_id e)
                                   (dev_class e) (cb_flags e) (cb_events e)
                                   (cb_fn e) (cb_handle e) (user_data e) 1
                   else e)
                (registry w (resolve w ctx))).
  { intros Hcap. destruct (Hyes Hcap) as (Hreg & _). rewrite Hreg.
    apply map_ext. intros e. apply mark_fields. }
  split; [exact Hno|].
  split; [|split; [exact Hmap|split; [|split; [|split; [exact Hother|split]]]]].
  - intros Hunk c0.
    destruct (has_hotplug w) eqn:Hcap; [|now rewrite (Hno eq_refl)].
    destruct (Z.eq_dec c0 (resolve w ctx)) as [->|Hc]; [|now apply Hother].
    destruct (Hyes eq_refl) as (Hreg & _). rewrite Hreg.
    rewrite <- (map_id (registry w (resolve w ctx))) at 2.
    apply map_ext_in. intros e He. apply Hmark_ne. now apply Hunk.
  - intros Hcap e' He' Hh. rewrite (Hmap Hcap) in He'.
    apply in_map_iff in He' as (e & <- & _).
    destruct (Z.eqb_spec (cb_handle e) handle) as [E|E]; [reflexivity|].
    contradiction.
  - intros Hcap e He Hh. rewrite (Hmap Hcap).
    exists (mkCallback (cb_ctx e) (vendor_id e) (product_id e) (dev_class e)
                       (cb_flags e) (cb_events e) (cb_fn e) (cb_handle e)
                       (user_data e) 1).
    split; [|cbn; repeat split].
    apply in_map_iff. exists e. split; [|exact He].
    apply Z.eqb_eq in Hh. now rewrite Hh.
  - intros c0.
    destruct (has_hotplug w) eqn:Hcap; [|now rewrite (Hno eq_refl)].
    destruct (Z.eq_dec c0 (resolve w ctx)) as [->|Hc];
      [|now rewrite Hother].
    destruct (Hyes eq_refl) as (Hreg & _). rewrite Hreg. apply length_map.
  - split; assumption.
Qed.

Lemma Zseq_cons a n : Zseq a (S n) = a :: Zseq (a + 1) n.
Proof.
  unfold Zseq. cbn [seq map]. f_equal; [lia|].
  rewrite <- seq_shift, map_map. apply map_ext. intros i. lia.
Qed.

Lemma Zseq_lower a n : Forall (fun x => a <= x) (Zseq a n).
Proof.
  unfold Zseq. apply Forall_forall. intros x Hx.
  apply in_map_iff in Hx as (i & <- & _). lia.
Qed.

Lemma Zseq_sorted n : forall a, StronglySorted Z.lt (Zseq a n).
Proof.
  induction n as [|n IH]; intros a.
  - constructor.
  - rewrite Zseq_cons. constructor; [apply IH|].
    eapply Forall_impl; [|apply Zseq_lower]. cbn beta. intros; lia.
Qed.

Lemma sorted_lt_NoDup l : StronglySorted Z.lt l -> NoDup l.
Proof.
  induction 1 as [|x l HS IH HF]; constructor; auto.
  intros Hin. rewrite Forall_forall in HF. specialize (HF _ Hin). lia.
Qed.

(** The handles issued during a run are consecutive, from the counter on. *)
Lemma issued_handles_seq ops : forall w,
  1 <= handle_id w ->
  handle_id w + Z.of_nat (length ops) <= INT_MAX ->
  issued_handles ops w = Zseq (handle_id w) (length (issued_handles ops w))
  /\ handle_id (run ops w) =
     handle_id w + Z.of_nat (length (issued_handles ops w)).
Proof.
  induction ops as [|op ops IH]; intros w Hlo Hhi.
  - cbn. split; [reflexivity|lia].
  - cbn [length] in Hhi. cbn [issued_handles].
    change (run (op :: ops) w) with (run ops (exec op w)).
    pose proof (exec_handle_id op w) as Hop.
    destruct op as [dev event|ctx ev fl v p c f d handle ok|ctx handle|ctx];
      try (cbn [app];
           match goal with
           | |- context [issued_handles ops (exec ?o w)] =>
               destruct (IH (exec o w)) as [I1 I2];
               [lia|lia|rewrite Hop in I1, I2; split; assumption]
           end).
    destruct (fst (register_new_callback ctx ev fl v p c f d ok w)) as [err|nc].
    + cbn [app]. destruct (IH (exec (Register ctx ev fl v p c f d handle ok) w))
        as [I1 I2]; [lia|lia|]. rewrite Hop in I1, I2. split; assumption.
    + destruct Hop as [Hh Hid].
      rewrite wrap_int_small in Hid by (unfold INT_MAX in *; lia).
      destruct (IH (exec (Register ctx ev fl v p c f d handle ok) w))
        as [I1 I2]; [lia|lia|]. rewrite Hid in I1, I2.
      cbn [app length]. rewrite Zseq_cons, Hh. split.
      * f_equal. exact I1.
      * rewrite I2. lia.
Qed.

(** C9.  The handle ids come from one counter that all contexts share:
    in any run of API calls, on whatever contexts, that starts with the
    counter at its initial value 1 and stays within the range of [int],
    the successful registrations obtain the ids 1, 2, 3, ... in this
    order; the ids strictly increase, none is used twice, and the counter
    ends at the number of ids issued plus one. *)
Theorem handle_ids_fresh ops w :
  handle_id w = 1 ->
  Z.of_nat (length ops) < INT_MAX ->
  let hs := issued_handles ops w in
  hs = Zseq 1 (length hs)
  /\ StronglySorted Z.lt hs
  /\ NoDup hs
  /\ Forall (fun h => 1 <= h) hs
  /\ handle_id (run ops w) = 1 + Z.of_nat (length hs).
Proof.
  intros H1 Hlen. cbn zeta.
  destruct (issued_handles_seq ops w) as [Hs Hid]; [lia|lia|].
  rewrite H1 in Hs, Hid.
  split; [exact Hs|]. rewrite Hs at 1 2 3.
  split; [apply Zseq_sorted|].
  split; [apply sorted_lt_NoDup, Zseq_sorted|].
  split; [apply Zseq_lower|exact Hid].
Qed.

(** C10.  With the capability present, valid parameters and a successful
    allocation, registration succeeds whether or not an output location
    is given: SUCCESS is returned, the new entry, active and carrying the
    current value of the counter as its handle (a handle that no linked
    entry has), is linked into the registry of the resolved context, and a
    later dispatch of an event it matches calls it.  The handle is stored
    to the output location when that location is not null, and no memory
    cell changes when it is.  The counter has advanced by one when
    registration returns, so the handle just issued lies below it, and the
    registry invariant (distinct handles, all below the counter) holds
    again. *)
Theorem register_without_handle_location ctx ev fl v p c f d handle w :
  has_hotplug w = true ->
  valid_params v p c f ->
  let r := libusb_hotplug_register_callback ctx ev fl v p c f d handle true w in
  let nc := new_callback_of w ctx ev fl v p c f d in
  fst r = LIBUSB_SUCCESS
  /\ registry (snd r) (cb_ctx nc) = nc :: registry w (cb_ctx nc)
  /\ cb_ctx nc = resolve w ctx
  /\ cb_handle nc = handle_id w
  /\ (wf w -> forall c0 e, In e (registry w c0) -> cb_handle e <> cb_handle nc)
  /\ needs_free nc = 0
  /\ (handle <> NULL -> mem (snd r) handle = handle_id w)
  /\ (forall a, a <> handle -> mem (snd r) a = mem w a)
  /\ (handle = NULL -> forall a, mem (snd r) a = mem w a)
  /\ (forall dev event,
         dev_ctx dev = cb_ctx nc ->
         cb_matches dev event nc = true ->
         map call_cb (calls_since (snd r) (exec (Dispatch dev event) (snd r))) =
         nc :: filter (cb_matches dev event) (registry w (cb_ctx nc)))
  /\ handle_id (snd r) = wrap_int (handle_id w + 1)
  /\ (1 <= handle_id w < INT_MAX ->
      handle_id (snd r) = handle_id w + 1 /\ cb_handle nc < handle_id (snd r))
  /\ (wf w -> 1 <= handle_id w < INT_MAX -> wf (snd r)).
Proof.
  intros Hcap Hval.
  assert (Hwf : wf w -> 1 <= handle_id w < INT_MAX ->
                wf (snd (libusb_hotplug_register_callback
                           ctx ev fl v p c f d handle true w))).
  { intros Hw Hr.
    exact (wf_exec (Register ctx ev fl v p c f d handle true) w Hr Hw). }
  assert (Hadv : handle_id (snd (libusb_hotplug_register_callback
                                   ctx ev fl v p c f d handle true w))
                 = wrap_int (handle_id w + 1)).
  { pose proof (exec_register_cases ctx ev fl v p c f d handle true w) as Hc.
    cbn zeta in Hc. destruct Hc as [[_ [err He]]|Hc].
    - pose proof (insane_values_false v p c f) as Hi.
      pose proof (register_new_callback_ok ctx ev fl v p c f d w Hcap
                    (proj2 Hi Hval)) as Ho.
      cbn zeta in Ho. destruct Ho as (Ho & _). rewrite He in Ho. discriminate.
    - destruct Hc as (_ & _ & _ & _ & _ & _ & _ & _ & Hid & _). exact Hid. }
  apply insane_values_false in Hval. cbn zeta.
  pose proof (register_spec ctx ev fl v p c f d handle true w) as Hr.
  pose proof (register_new_callback_ok ctx ev fl v p c f d w Hcap Hval) as H.
  cbn zeta in Hr, H.
  destruct H as (H1 & H2 & _ & _ & _ & _ & H7 & _).
  rewrite H1 in Hr. destruct Hr as (R1 & R2 & _ & _ & _ & _ & _ & R8).
  set (r := libusb_hotplug_register_callback ctx ev fl v p c f d handle true w) in *.
  set (nc := new_callback_of w ctx ev fl v p c f d) in *.
  assert (Hreg : registry (snd r) (cb_ctx nc) = nc :: registry w (cb_ctx nc))
    by (unfold registry in *; now rewrite R2).
  split; [exact R1|]. split; [exact Hreg|].
  split; [reflexivity|]. split; [reflexivity|].
  split.
  { intros (_ & Hbelow & _) c0 e He Heq. specialize (Hbelow _ _ He).
    cbn in Heq. lia. }
  split; [reflexivity|].
  split.
  { intros Hn. rewrite R8. apply Z.eqb_neq in Hn.
    now rewrite Hn, Z.eqb_refl. }
  split.
  { intros a Ha. rewrite R8, H7. apply Z.eqb_neq in Ha.
    now rewrite Ha, andb_false_r. }
  split.
  { intros Hn a. rewrite R8, H7. apply Z.eqb_eq in Hn. now rewrite Hn. }
  split.
  { intros dev event Hctx Hm.
    rewrite exec_dispatch_calls, map_map. cbn [call_of call_cb].
    rewrite map_id, Hctx, Hreg. cbn [filter]. now rewrite Hm. }
  split; [exact Hadv|].
  split; [|exact Hwf].
  intros Hr. rewrite Hadv, wrap_int_small by (unfold INT_MAX in *; lia).
  split; [reflexivity|]. cbn. lia.
Qed.

(** X7.  Registration-time enumeration calls the new entry once for each known
    device it matches on ARRIVED, in the order of the device list, and the
    entry is linked and active when registration returns, whatever the
    callback returned. *)
Lemma enumeration_keeps_entry ctx ev fl v p c f d handle w :
  has_hotplug w = true ->
  valid_params v p c f ->
  Z.land fl LIBUSB_HOTPLUG_ENUMERATE <> 0 ->
  let w' := exec (Register ctx ev fl v p c f d handle true) w in
  let nc := new_callback_of w ctx ev fl v p c f d in
  map call_dev (calls_since w w') =
  filter (fun dev => cb_matches dev LIBUSB_HOTPLUG_EVENT_DEVICE_ARRIVED nc)
         (usb_devs (ctxs w (cb_ctx nc)))
  /\ Forall (fun k => call_cb k = nc
                      /\ call_event k = LIBUSB_HOTPLUG_EVENT_DEVICE_ARRIVED)
            (calls_since w w')
  /\ In nc (registry w' (cb_ctx nc))
  /\ needs_free nc = 0.
Proof.
  intros Hcap Hval Hfl. apply insane_values_false in Hval. cbn zeta.
  pose proof (exec_register_cases ctx ev fl v p c f d handle true w) as H.
  cbn zeta in H. destruct H as [[_ [err He]]|H].
  - pose proof (register_new_callback_ok ctx ev fl v p c f d w Hcap Hval) as H.
    cbn zeta in H. destruct H as (H & _). rewrite He in H. discriminate.
  - destruct H as (_ & _ & _ & _ & Hreg & _ & _ & _ & _ & Htr).
    rewrite (calls_since_app _ _ _ Htr). unfold enumeration_calls.
    apply Z.eqb_neq in Hfl. rewrite Hfl. cbn [negb].
    split; [|split; [|split]].
    + rewrite map_map. cbn [call_of call_dev]. apply map_id.
    + apply Forall_forall. intros k Hk.
      apply in_map_iff in Hk as (dev & <- & _). split; reflexivity.
    + rewrite Hreg. left. reflexivity.
    + reflexivity.
Qed.

(** ** Further properties of the operations *)

Lemma match_pass_sweep ctx dev event cbs : forall w,
  fst (match_pass ctx dev event cbs w)
  = fst (sweep (usbi_default_context w) dev event cbs (ustate w))
  /\ ustate (snd (match_pass ctx dev event cbs w))
     = snd (sweep (usbi_default_context w) dev event cbs (ustate w)).
Proof.
  induction cbs as [|cb next IH]; intros w; [split; reflexivity|].
  cbn [match_pass sweep]. unfold_m.
  set (w1 := set_held _ w).
  rewrite (match_cb_eq dev event cb w1).
  destruct (cb_matches dev event cb).
  - unfold invoke, ctx_or_null. cbn [fst snd].
    change (usbi_default_context w1) with (usbi_default_context w).
    change (ustate w1) with (ustate w).
    set (r := call_fn _ _ _ _ _ _).
    match goal with
    | |- context [match_pass ctx dev event next ?w0] =>
        destruct (IH w0) as [I1 I2]
    end.
    cbn [usbi_default_context ustate set_held set_trace_ustate] in I1, I2.
    rewrite I1, I2. split; reflexivity.
  - cbn [fst snd].
    match goal with
    | |- context [match_pass ctx dev event next ?w0] =>
        destruct (IH w0) as [I1 I2]
    end.
    cbn [usbi_default_context ustate set_held] in I1, I2.
    change (usbi_default_context w1) with (usbi_default_context w) in I1, I2.
    change (ustate w1) with (ustate w) in I1, I2.
    rewrite I1, I2. split; [|reflexivity].
    destruct (needs_free cb =? 0); reflexivity.
Qed.

(** A dispatch, on the registry it sweeps and on the user state. *)
Lemma dispatch_sweep dev event w :
  registry (exec (Dispatch dev event) w) (dev_ctx dev)
  = fst (sweep (usbi_default_context w) dev event (registry w (dev_ctx dev)) (ustate w))
  /\ ustate (exec (Dispatch dev event) w)
     = snd (sweep (usbi_default_context w) dev event (registry w (dev_ctx dev))
                  (ustate w)).
Proof.
  cbn [exec]. unfold usbi_hotplug_match, registry. unfold_m.
  set (ctx := dev_ctx dev).
  set (w1 := set_held (hotplug_cbs_lock ctx :: held w) w).
  change (hotplug_cbs (ctxs w1 ctx)) with (hotplug_cbs (ctxs w ctx)).
  destruct (match_pass_sweep ctx dev event (hotplug_cbs (ctxs w ctx)) w1) as [H1 H2].
  change (usbi_default_context w1) with (usbi_default_context w) in H1, H2.
  change (ustate w1) with (ustate w) in H1, H2.
  destruct (LIBUSB_HOTPLUG_EVENT_DEVICE_LEFT =? event);
    cbn [fst snd ctxs set_ctxs set_held ustate];
    rewrite ?upd_ctx_same; cbn [hotplug_cbs];
    rewrite ?upd_ctx_same; cbn [hotplug_cbs];
    split; assumption.
Qed.

Lemma sweep_unmatched dflt dev event cbs : forall u,
  filter (fun cb => negb (cb_matches dev event cb)) (fst (sweep dflt dev event cbs u))
  = filter (fun cb => active cb && negb (cb_matches dev event cb)) cbs.
Proof.
  induction cbs as [|cb next IH]; intros u; [reflexivity|].
  cbn [sweep filter]. destruct (cb_matches dev event cb) eqn:Hm; cbn [fst negb].
  - rewrite andb_false_r.
    destruct (fst (call_fn _ _ _ _ _ _) =? 0); cbn [filter]; rewrite ?Hm; apply IH.
  - unfold active. rewrite andb_true_r.
    destruct (needs_free cb =? 0); cbn [filter]; rewrite ?Hm; cbn [negb];
      rewrite IH; reflexivity.
Qed.

Lemma sweep_no_match dflt dev event cbs u :
  (forall cb, In cb cbs -> cb_matches dev event cb = false) ->
  sweep dflt dev event cbs u = (filter active cbs, u).
Proof.
  induction cbs as [|cb next IH]; intros H; [reflexivity|].
  cbn [sweep filter]. rewrite (H cb (or_introl eq_refl)).
  rewrite IH by (intros; apply H; now right). cbn [fst snd]. unfold active.
  destruct (needs_free cb =? 0); reflexivity.
Qed.

Lemma sweep_all_keep dflt dev event cbs : forall u,
  (forall cb u', In cb cbs ->
     fst (call_fn (cb_fn cb) (if dev_ctx dev =? dflt then NULL else dev_ctx dev)
                  dev event (user_data cb) u') = 0) ->
  fst (sweep dflt dev event cbs u) = filter active cbs.
Proof.
  induction cbs as [|cb next IH]; intros u H; [reflexivity|].
  cbn [sweep filter]. destruct (cb_matches dev event cb) eqn:Hm; cbn [fst].
  - rewrite (H cb u (or_introl eq_refl)). cbn [Z.eqb].
    unfold active. rewrite (cb_matches_active _ _ _ Hm). cbn [Z.eqb].
    f_equal. apply IH. intros; apply H; now right.
  - rewrite IH by (intros; apply H; now right). unfold active.
    destruct (needs_free cb =? 0); reflexivity.
Qed.

Lemma sweep_all_detach dflt dev event cbs : forall u,
  (forall cb u', In cb cbs ->
     fst (call_fn (cb_fn cb) (if dev_ctx dev =? dflt then NULL else dev_ctx dev)
                  dev event (user_data cb) u') <> 0) ->
  fst (sweep dflt dev event cbs u)
  = filter (fun cb => active cb && negb (cb_matches dev event cb)) cbs.
Proof.
  induction cbs as [|cb next IH]; intros u H; [reflexivity|].
  cbn [sweep filter]. destruct (cb_matches dev event cb) eqn:Hm; cbn [fst negb].
  - rewrite andb_false_r.
    destruct (Z.eqb_spec (fst (call_fn (cb_fn cb)
                (if dev_ctx dev =? dflt then NULL else dev_ctx dev)
                dev event (user_data cb) u)) 0) as [E|E].
    + exfalso. exact (H cb u (or_introl eq_refl) E).
    + apply IH. intros; apply H; now right.
  - rewrite andb_true_r, IH by (intros; apply H; now right). unfold active.
    destruct (needs_free cb =? 0); reflexivity.
Qed.

Lemma filter_none {A} (p : A -> bool) (l : list A) :
  (forall x, In x l -> p x = false) -> filter p l = [].
Proof.
  induction l as [|x l IH]; intros H; [reflexivity|].
  cbn [filter]. rewrite (H x (or_introl eq_refl)). apply IH.
  intros; apply H; now right.
Qed.

Lemma map_mark_id h l :
  (forall e, In e l -> cb_handle e <> h) -> map (mark h) l = l.
Proof.
  intros H. rewrite <- (map_id l) at 2. apply map_ext_in. intros e He.
  unfold mark. destruct (Z.eqb_spec h (cb_handle e)) as [E|E]; [|reflexivity].
  exfalso. apply (H e He). now symmetry.
Qed.

Lemma mark_idem h e : mark h (mark h e) = mark h e.
Proof.
  unfold mark. destruct (h =? cb_handle e) eqn:E; cbn; rewrite E; reflexivity.
Qed.

Lemma deregister_all_devs ctx w :
  usb_devs (ctxs (exec (DeregisterAll ctx) w) ctx) = usb_devs (ctxs w ctx)
  /\ open_devs (ctxs (exec (DeregisterAll ctx) w) ctx) = open_devs (ctxs w ctx)
  /\ held (exec (DeregisterAll ctx) w)
     = unlocked (hotplug_cbs_lock ctx) (held w)
  /\ ustate (exec (DeregisterAll ctx) w) = ustate w
  /\ mem (exec (DeregisterAll ctx) w) = mem w.
Proof.
  cbn [exec]. unfold usbi_hotplug_deregister_all. unfold_m.
  cbn [ctxs set_ctxs set_held held ustate mem].
  rewrite upd_ctx_same, unlocked_cons_same. repeat split.
Qed.

Lemma deregister_held ctx handle w :
  held w = [] -> held (exec (Deregister ctx handle) w) = [].
Proof.
  intros H. cbn [exec]. unfold libusb_hotplug_deregister_callback. unfold_m.
  destruct (has_hotplug w); cbn [negb fst snd]; [|exact H].
  cbn [set_ctxs set_held held]. rewrite unlocked_cons_same, H. reflexivity.
Qed.

Lemma register_held ctx ev fl v p c f d handle ok w :
  held w = [] -> held (exec (Register ctx ev fl v p c f d handle ok) w) = [].
Proof.
  intros H.
  pose proof (exec_register_cases ctx ev fl v p c f d handle ok w) as Hc.
  cbn zeta in Hc. destruct Hc as [[-> _]|Hc]; [exact H|].
  destruct Hc as (Hcap & Hsane & -> & _).
  pose proof (register_spec ctx ev fl v p c f d handle true w) as Hr.
  pose proof (register_new_callback_ok ctx ev fl v p c f d w Hcap Hsane) as Ho.
  cbn zeta in Hr, Ho.
  destruct Ho as (H1 & _ & _ & _ & _ & _ & _ & _ & _ & _ & H11).
  rewrite H1 in Hr. destruct Hr as (_ & _ & _ & _ & R5 & _).
  cbn [exec]. rewrite R5. now apply H11.
Qed.

(** X1.  Teardown of a context unlinks every entry of its registry, active
    or pending, with or without the hotplug capability, and calls no
    callback; the devices and open handles of the context, the other
    contexts and the handle counter are as before; and a later dispatch on
    the context calls nothing. *)
Theorem teardown_clears ctx w :
  let w' := exec (DeregisterAll ctx) w in
  registry w' ctx = []
  /\ trace w' = trace w
  /\ handle_id w' = handle_id w
  /\ usb_devs (ctxs w' ctx) = usb_devs (ctxs w ctx)
  /\ open_devs (ctxs w' ctx) = open_devs (ctxs w ctx)
  /\ (forall c, c <> ctx -> ctxs w' c = ctxs w c)
  /\ (forall dev event, dev_ctx dev = ctx ->
        calls_since w' (exec (Dispatch dev event) w') = []
        /\ registry (exec (Dispatch dev event) w') ctx = []).
Proof.
  cbn zeta.
  pose proof (deregister_all_spec ctx w) as H. cbn zeta in H.
  destruct H as (Hnil & Hoth & Hid & Htr).
  destruct (deregister_all_devs ctx w) as (Hu & Ho & _).
  change (snd (usbi_hotplug_deregister_all ctx w))
    with (exec (DeregisterAll ctx) w) in *.
  repeat split; try assumption.
  - rewrite exec_dispatch_calls, H, Hnil. reflexivity.
  - destruct (dispatch_sweep dev event (exec (DeregisterAll ctx) w)) as [Hs _].
    rewrite H in Hs. rewrite Hs, Hnil. reflexivity.
Qed.

(** X2.  With callbacks that do not re-enter the library (they register,
    deregister, open and close nothing during the call, as the callbacks
    of this development), a dispatch only removes entries: the registry of
    the device's context afterwards is a subsequence of the one before and
    holds active entries only; the registries of all other contexts, every
    device list, the handle counter and the memory cells are unchanged. *)
Theorem dispatch_only_removes dev event w :
  let w' := exec (Dispatch dev event) w in
  sublist (registry w' (dev_ctx dev)) (registry w (dev_ctx dev))
  /\ Forall (fun e => needs_free e = 0) (registry w' (dev_ctx dev))
  /\ (forall c, c <> dev_ctx dev -> registry w' c = registry w c)
  /\ (forall c, usb_devs (ctxs w' c) = usb_devs (ctxs w c))
  /\ handle_id w' = handle_id w
  /\ mem w' = mem w.
Proof.
  cbn zeta. cbn [exec].
  pose proof (hotplug_match_spec dev event w) as H. cbn zeta in H.
  destruct H as (Hsub & Hact & Hoth & Hu & _ & (_ & _ & Hid & Hm) & _).
  repeat split; try assumption.
  - intros c Hc. unfold registry. now rewrite Hoth.
  - intros c. destruct (Z.eq_dec c (dev_ctx dev)) as [->|Hc]; [exact Hu|].
    now rewrite Hoth.
Qed.

(** X3.  With callbacks that do not re-enter the library, a dispatch
    keeps, in their order, exactly the active entries among those that do
    not match the event and device.  When no entry matches (an event
    outside every mask, for instance) it calls nothing, leaves the user
    state alone and only unlinks the pending entries. *)
Theorem dispatch_keeps_unmatched dev event w :
  let w' := exec (Dispatch dev event) w in
  filter (fun cb => negb (cb_matches dev event cb)) (registry w' (dev_ctx dev))
  = filter (fun cb => active cb && negb (cb_matches dev event cb))
           (registry w (dev_ctx dev))
  /\ ((forall cb, In cb (registry w (dev_ctx dev)) -> cb_matches dev event cb = false) ->
      registry w' (dev_ctx dev) = filter active (registry w (dev_ctx dev))
      /\ calls_since w w' = []
      /\ ustate w' = ustate w).
Proof.
  cbn zeta. destruct (dispatch_sweep dev event w) as [Hr Hu]. split.
  - rewrite Hr. apply sweep_unmatched.
  - intros Hno. rewrite Hr, Hu, exec_dispatch_calls.
    rewrite (sweep_no_match _ _ _ _ _ Hno). cbn [fst snd].
    repeat split. now rewrite (filter_none _ _ Hno).
Qed.

(** X4.  With callbacks that do not re-enter the library, their return
    value alone decides what a dispatch keeps: if the callbacks of the
    registry's entries return 0 for this device and event, every active
    entry stays linked; if they return non-zero, the entries that stay are
    the active ones that do not match. *)
Theorem dispatch_respects_return dev event w :
  let w' := exec (Dispatch dev event) w in
  let cbs := registry w (dev_ctx dev) in
  ((forall cb u, In cb cbs ->
      fst (call_fn (cb_fn cb) (ctx_or_null w dev) dev event (user_data cb) u) = 0) ->
   registry w' (dev_ctx dev) = filter active cbs)
  /\ ((forall cb u, In cb cbs ->
         fst (call_fn (cb_fn cb) (ctx_or_null w dev) dev event (user_data cb) u) <> 0) ->
      registry w' (dev_ctx dev)
      = filter (fun cb => active cb && negb (cb_matches dev event cb)) cbs).
Proof.
  cbn zeta. destruct (dispatch_sweep dev event w) as [Hr _]. unfold ctx_or_null.
  split; intros H; rewrite Hr.
  - now apply sweep_all_keep.
  - now apply sweep_all_detach.
Qed.

Lemma register_frame ctx ev fl v p c f d handle ok w :
  has_hotplug (exec (Register ctx ev fl v p c f d handle ok) w) = has_hotplug w
  /\ usbi_default_context (exec (Register ctx ev fl v p c f d handle ok) w)
     = usbi_default_context w.
Proof.
  pose proof (exec_register_cases ctx ev fl v p c f d handle ok w) as Hc.
  cbn zeta in Hc. destruct Hc as [[-> _]|Hc]; [split; reflexivity|].
  destruct Hc as (Hcap & Hsane & -> & _).
  pose proof (register_spec ctx ev fl v p c f d handle true w) as Hr.
  pose proof (register_new_callback_ok ctx ev fl v p c f d w Hcap Hsane) as Ho.
  cbn zeta in Hr, Ho.
  destruct Ho as (H1 & _ & _ & _ & _ & _ & _ & H8 & H9 & _).
  rewrite H1 in Hr. destruct Hr as (_ & _ & _ & _ & _ & R6 & R7 & _).
  cbn [exec]. rewrite R6, R7, H8, H9. split; reflexivity.
Qed.

(** X12.  The result of registration tells which check failed: it is
    SUCCESS exactly when the capability is present, the parameters are
    valid and the allocation succeeded; NOT_SUPPORTED exactly when the
    capability is absent; INVALID_PARAM exactly when the capability is
    present and the parameters are not valid; NO_MEM exactly when only the
    allocation failed. *)
Theorem register_result_iff ctx ev fl v p c f d handle ok w :
  let r := libusb_hotplug_register_callback ctx ev fl v p c f d handle ok w in
  (fst r = LIBUSB_SUCCESS <->
   has_hotplug w = true /\ valid_params v p c f /\ ok = true)
  /\ (fst r = LIBUSB_ERROR_NOT_SUPPORTED <-> has_hotplug w = false)
  /\ (fst r = LIBUSB_ERROR_INVALID_PARAM <->
      has_hotplug w = true /\ ~ valid_params v p c f)
  /\ (fst r = LIBUSB_ERROR_NO_MEM <->
      has_hotplug w = true /\ valid_params v p c f /\ ok = false).
Proof.
  cbn zeta.
  pose proof (register_spec ctx ev fl v p c f d handle ok w) as Hr.
  cbn zeta in Hr.
  pose proof (insane_values_false v p c f) as Hv.
  fold (valid_params v p c f) in Hv.
  destruct (register_new_callback_error ctx ev fl v p c f d ok w)
    as [He|(Hcap & Hsane & ->)].
  - rewrite He in Hr. cbn [fst snd] in Hr. rewrite Hr. cbn [fst].
    destruct (has_hotplug w) eqn:Hcap; cbn [negb].
    + destruct (insane_values v p c f) eqn:Hi.
      * assert (~ valid_params v p c f) by (rewrite <- Hv; discriminate).
        (split; [|split; [|split]]; split; intros Hx; try discriminate Hx;
          intuition (try discriminate; try congruence; auto)).
      * assert (valid_params v p c f) by (now apply Hv).
        destruct ok.
        -- destruct (register_new_callback_ok ctx ev fl v p c f d w Hcap Hi)
             as (H1 & _). cbn zeta in H1. rewrite He in H1. discriminate.
        -- (split; [|split; [|split]]; split; intros Hx; try discriminate Hx;
          intuition (try discriminate; try congruence; auto)).
    + (split; [|split; [|split]]; split; intros Hx; try discriminate Hx;
          intuition (try discriminate; try congruence; auto)).
  - pose proof (register_new_callback_ok ctx ev fl v p c f d w Hcap Hsane) as H.
    cbn zeta in H. destruct H as (H1 & _). rewrite H1 in Hr.
    destruct Hr as (Hs & _). rewrite Hs.
    assert (valid_params v p c f) by (now apply Hv).
    (split; [|split; [|split]]; split; intros Hx; try discriminate Hx;
          intuition (try discriminate; try congruence; auto)).
Qed.

(** X13.  Deregistration looks only at the registry of the context it is
    given: when the handle belongs to an entry of another context, every
    registry is left exactly as it was and that entry stays active. *)
Theorem deregister_is_context_scoped ctx e c w :
  wf w ->
  In e (registry w c) ->
  resolve w ctx <> c ->
  forall c0, registry (exec (Deregister ctx (cb_handle e)) w) c0 = registry w c0.
Proof.
  intros (_ & _ & Hdisj) Hin Hne c0. cbn [exec].
  pose proof (deregister_spec ctx (cb_handle e) w) as H. cbn zeta in H.
  destruct H as (Hno & Hyes & Hoth & _).
  destruct (has_hotplug w) eqn:Hcap; [|now rewrite (Hno eq_refl)].
  destruct (Z.eq_dec c0 (resolve w ctx)) as [->|Hc].
  - destruct (Hyes eq_refl) as (Hreg & _). rewrite Hreg.
    apply map_mark_id. intros e' He' Heq.
    apply Hne. eapply Hdisj; eauto.
  - unfold registry. now rewrite Hoth.
Qed.

(** X14.  Deregistering a handle a second time changes no registry: the
    entry is already pending and stays as the first call left it. *)
Theorem deregister_twice ctx handle w :
  forall c0,
    registry (exec (Deregister ctx handle) (exec (Deregister ctx handle) w)) c0
    = registry (exec (Deregister ctx handle) w) c0.
Proof.
  intros c0. cbn [exec].
  pose proof (deregister_spec ctx handle w) as H. cbn zeta in H.
  destruct H as (Hno & Hyes & Hoth & _ & _ & _ & _ & Hdf & Hcp).
  set (w1 := snd (libusb_hotplug_deregister_callback ctx handle w)) in *.
  pose proof (deregister_spec ctx handle w1) as H1. cbn zeta in H1.
  destruct H1 as (Hno1 & Hyes1 & Hoth1 & _).
  assert (Hres : resolve w1 ctx = resolve w ctx)
    by (unfold resolve; now rewrite Hdf).
  rewrite Hres in *.
  destruct (has_hotplug w) eqn:Hcap.
  - destruct (Hyes eq_refl) as (Hreg & _), (Hyes1 Hcp) as (Hreg1 & _).
    destruct (Z.eq_dec c0 (resolve w ctx)) as [->|Hc].
    + rewrite Hreg1, Hreg, map_map. apply map_ext. intros; apply mark_idem.
    + unfold registry. now rewrite Hoth1.
  - now rewrite (Hno1 Hcp).
Qed.


Lemma exec_held op w : held w = [] -> held (exec op w) = [].
Proof.
  intros H.
  destruct op as [dev event|ctx ev fl v p c f d handle ok|ctx handle|ctx].
  - pose proof (hotplug_match_spec dev event w) as Hs. cbn zeta in Hs.
    destruct Hs as (_ & _ & _ & _ & _ & _ & _ & Hh).
    cbn [exec]. rewrite Hh, H.
    destruct (LIBUSB_HOTPLUG_EVENT_DEVICE_LEFT =? event); reflexivity.
  - now apply register_held.
  - now apply deregister_held.
  - destruct (deregister_all_devs ctx w) as (_ & _ & Hh & _).
    rewrite Hh, H. reflexivity.
Qed.

(** X10.  No operation returns with a mutex still locked: a thread that
    holds none before a sequence of dispatches, registrations (early
    returns included), deregistrations and teardowns holds none after it. *)
Theorem locks_released_on_return ops : forall w,
  held w = [] -> held (run ops w) = [].
Proof.
  induction ops as [|op ops IH]; intros w H; [exact H|].
  change (run (op :: ops) w) with (run ops (exec op w)).
  apply IH. now apply exec_held.
Qed.

(** X8.  A registration makes no callback invocation when the enumerate
    flag is not set, when the event mask does not hold ARRIVED, or when the
    context knows no device. *)
Theorem register_without_calls ctx ev fl v p c f d handle ok w :
  Z.land fl LIBUSB_HOTPLUG_ENUMERATE = 0
  \/ Z.land ev LIBUSB_HOTPLUG_EVENT_DEVICE_ARRIVED = 0
  \/ usb_devs (ctxs w (resolve w ctx)) = [] ->
  calls_since w (exec (Register ctx ev fl v p c f d handle ok) w) = [].
Proof.
  intros H.
  pose proof (exec_register_cases ctx ev fl v p c f d handle ok w) as Hc.
  cbn zeta in Hc. destruct Hc as [[-> _]|Hc]; [apply calls_since_refl|].
  destruct Hc as (_ & _ & _ & _ & _ & _ & _ & _ & _ & Htr).
  rewrite (calls_since_app _ _ _ Htr). unfold enumeration_calls.
  destruct H as [H|[H|H]].
  - apply Z.eqb_eq in H. now rewrite H.
  - destruct (negb (Z.land fl LIBUSB_HOTPLUG_ENUMERATE =? 0)); [|reflexivity].
    rewrite filter_none; [reflexivity|].
    intros dev _. unfold cb_matches, new_callback_of. cbn [cb_events needs_free].
    apply Z.eqb_eq in H. rewrite H. reflexivity.
  - destruct (negb (Z.land fl LIBUSB_HOTPLUG_ENUMERATE =? 0)); [|reflexivity].
    unfold resolve in H. unfold new_callback_of. cbn [cb_ctx]. rewrite H.
    reflexivity.
Qed.



Lemma Forall2_refl_evolves l : Forall2 handle_evolves l l.
Proof. induction l; constructor; auto. split; auto. Qed.

Lemma Forall2_trans_evolves l1 l2 l3 :
  Forall2 handle_evolves l1 l2 -> Forall2 handle_evolves l2 l3 ->
  Forall2 handle_evolves l1 l3.
Proof.
  intros H. revert l3. induction H as [|a b l1 l2 [Hd Hc] _ IH]; intros l3 H3.
  - inversion H3; constructor.
  - inversion H3 as [|? c ? l3' [Hd' Hc'] H3']; subst. constructor; [|now apply IH].
    split; [congruence|auto].
Qed.

Lemma Forall2_evolves_disconnect dev l :
  Forall2 handle_evolves l
          (map (fun handle => if dev_addr dev =? hdl_dev handle
                              then usbi_handle_disconnect handle else handle) l).
Proof.
  induction l as [|h l IH]; cbn [map]; constructor; [|exact IH].
  destruct (dev_addr dev =? hdl_dev h); split; auto.
Qed.

Lemma exec_devs op w c :
  usb_devs (ctxs (exec op w) c) = usb_devs (ctxs w c)
  /\ Forall2 handle_evolves (open_devs (ctxs w c)) (open_devs (ctxs (exec op w) c)).
Proof.
  destruct op as [dev event|ctx ev fl v p c0 f d handle ok|ctx handle|ctx].
  - pose proof (hotplug_match_spec dev event w) as H. cbn zeta in H.
    destruct H as (_ & _ & Hoth & Hu & Ho & _). cbn [exec].
    destruct (Z.eq_dec c (dev_ctx dev)) as [->|Hc].
    + split; [exact Hu|]. rewrite Ho.
      destruct (LIBUSB_HOTPLUG_EVENT_DEVICE_LEFT =? event);
        [|apply Forall2_refl_evolves].
      apply Forall2_evolves_disconnect.
    + rewrite Hoth by exact Hc. split; [reflexivity|apply Forall2_refl_evolves].
  - pose proof (exec_register_cases ctx ev fl v p c0 f d handle ok w) as H.
    cbn zeta in H. destruct H as [[-> _]|H];
      [split; [reflexivity|apply Forall2_refl_evolves]|].
    destruct H as (_ & _ & _ & _ & _ & Hoth & Hu & Ho & _).
    destruct (Z.eq_dec c (cb_ctx (new_callback_of w ctx ev fl v p c0 f d)))
      as [->|Hc].
    + rewrite Hu, Ho. split; [reflexivity|apply Forall2_refl_evolves].
    + rewrite Hoth by exact Hc. split; [reflexivity|apply Forall2_refl_evolves].
  - pose proof (deregister_spec ctx handle w) as H. cbn zeta in H.
    destruct H as (Hno & Hyes & Hoth & _). cbn [exec].
    destruct (has_hotplug w) eqn:Hcap;
      [|rewrite (Hno eq_refl); split; [reflexivity|apply Forall2_refl_evolves]].
    destruct (Hyes eq_refl) as (_ & Hu & Ho).
    destruct (Z.eq_dec c (resolve w ctx)) as [->|Hc].
    + rewrite Hu, Ho. split; [reflexivity|apply Forall2_refl_evolves].
    + rewrite Hoth by exact Hc. split; [reflexivity|apply Forall2_refl_evolves].
  - pose proof (deregister_all_spec ctx w) as H. cbn zeta in H.
    destruct H as (_ & Hoth & _).
    destruct (deregister_all_devs ctx w) as (Hu & Ho & _).
    destruct (Z.eq_dec c ctx) as [->|Hc].
    + rewrite Hu, Ho. split; [reflexivity|apply Forall2_refl_evolves].
    + cbn [exec]. rewrite Hoth by exact Hc.
      split; [reflexivity|apply Forall2_refl_evolves].
Qed.

(** X15.  The four functions of hotplug.c themselves never add, remove or
    reorder devices or open handles, never rebind a handle and never
    revive one.  So, with callbacks that do not open or close handles and
    do not re-enter the library, after any sequence of operations every
    device list is as before, and every list of open handles holds the
    same handles, position by position, each bound to the same device and
    disconnected if it was before. *)
Theorem handles_only_disconnect ops : forall w c,
  usb_devs (ctxs (run ops w) c) = usb_devs (ctxs w c)
  /\ Forall2 handle_evolves (open_devs (ctxs w c)) (open_devs (ctxs (run ops w) c)).
Proof.
  induction ops as [|op ops IH]; intros w c.
  - split; [reflexivity|apply Forall2_refl_evolves].
  - change (run (op :: ops) w) with (run ops (exec op w)).
    destruct (IH (exec op w) c) as [I1 I2], (exec_devs op w c) as [E1 E2].
    split; [congruence|]. eapply Forall2_trans_evolves; eauto.
Qed.

Lemma exec_default op w :
  usbi_default_context (exec op w) = usbi_default_context w.
Proof.
  destruct op as [dev event|ctx ev fl v p c f d handle ok|ctx handle|ctx].
  - pose proof (hotplug_match_spec dev event w) as H. cbn zeta in H. apply H.
  - apply register_frame.
  - apply deregister_spec.
  - reflexivity.
Qed.

Lemma exec_calls_justified op w :
  Forall (justified (usbi_default_context w)) (calls_since w (exec op w)).
Proof.
  destruct op as [dev event|ctx ev fl v p c f d handle ok|ctx handle|ctx].
  - rewrite exec_dispatch_calls. apply Forall_forall. intros k Hk.
    apply in_map_iff in Hk as (cb & <- & Hcb).
    apply filter_In in Hcb as [_ Hm]. repeat split. exact Hm.
  - pose proof (exec_register_cases ctx ev fl v p c f d handle ok w) as H.
    cbn zeta in H. destruct H as [[-> _]|H];
      [rewrite calls_since_refl; constructor|].
    destruct H as (_ & _ & _ & _ & _ & _ & _ & _ & _ & Htr).
    rewrite (calls_since_app _ _ _ Htr). unfold enumeration_calls.
    destruct (negb (Z.land fl LIBUSB_HOTPLUG_ENUMERATE =? 0)); [|constructor].
    apply Forall_forall. intros k Hk.
    apply in_map_iff in Hk as (dev & <- & Hdev).
    apply filter_In in Hdev as [_ Hm]. repeat split. exact Hm.
  - pose proof (deregister_spec ctx handle w) as H. cbn zeta in H.
    destruct H as (_ & _ & _ & _ & _ & Htr & _).
    rewrite (calls_since_app w _ []); [constructor|].
    cbn [exec]. now rewrite Htr, app_nil_r.
  - pose proof (deregister_all_spec ctx w) as H. cbn zeta in H.
    destruct H as (_ & _ & _ & Htr).
    rewrite (calls_since_app w _ []); [constructor|].
    cbn [exec]. now rewrite Htr, app_nil_r.
Qed.

(** X16.  Every callback invocation made in any sequence of operations is
    one the matcher allows: the entry called was active, its event mask
    held the event, its filter accepted the device, it was passed its own
    user data, and the context it was passed is NULL when the device's
    context is the default context and the device's context otherwise. *)
Theorem every_call_is_justified ops : forall w,
  Forall (justified (usbi_default_context w)) (calls_since w (run ops w)).
Proof.
  induction ops as [|op ops IH]; intros w.
  - cbn [run fold_left]. rewrite calls_since_refl. constructor.
  - rewrite calls_since_step. apply Forall_app. split.
    + apply exec_calls_justified.
    + rewrite <- (exec_default op w). apply IH.
Qed.

End Model.

(** ** Worked instances *)

(** ** Worked instances *)

(** An active entry that listens to ARRIVED and accepts the device: the
    callback is called once, with the device's own (non-default) context. *)
Lemma matcher_decision_order_witness :
  needs_free example_cb = 0
  /\ Z.land (cb_events example_cb) LIBUSB_HOTPLUG_EVENT_DEVICE_ARRIVED <> 0
  /\ ~ filter_mismatch example_dev example_cb
  /\ trace (snd (usbi_hotplug_match_cb Z example_call_fn example_dev
                   LIBUSB_HOTPLUG_EVENT_DEVICE_ARRIVED example_cb example_world))
     = [mkCall example_cb 7 example_dev 1 0 []].
Proof.
  assert (H1 : needs_free example_cb = 0) by reflexivity.
  assert (H2 : Z.land (cb_events example_cb) LIBUSB_HOTPLUG_EVENT_DEVICE_ARRIVED <> 0)
    by discriminate.
  assert (H3 : ~ filter_mismatch example_dev example_cb)
    by (unfold filter_mismatch; cbn; intuition congruence).
  split; [exact H1|]. split; [exact H2|]. split; [exact H3|].
  pose proof (matcher_decision_order Z example_call_fn example_dev
                LIBUSB_HOTPLUG_EVENT_DEVICE_ARRIVED example_cb example_world) as H.
  cbn zeta in H. destruct H as (_ & _ & _ & H).
  destruct (H H1 H2 H3) as (_ & _ & Ht & _). exact Ht.
Defined.

Lemma example_pending_world_wf : wf Z example_pending_world.
Proof.
  assert (Hreg : forall c, registry Z example_pending_world c =
                           if c =? 7 then [example_active; example_pending] else []).
  { intros c. unfold registry, example_pending_world. cbn [ctxs].
    destruct (c =? 7); reflexivity. }
  split; [|split].
  - intros c. rewrite Hreg. destruct (c =? 7); cbn.
    + repeat constructor.
    + constructor.
  - intros c e. rewrite Hreg. destruct (c =? 7); cbn; [|contradiction].
    intros [<-|[<-|[]]]; reflexivity.
  - intros c1 c2 e1 e2. rewrite !Hreg.
    destruct (Z.eqb_spec c1 7), (Z.eqb_spec c2 7); cbn; try contradiction.
    congruence.
Defined.

(** The pending entry of [example_pending_world] through a registration with
    enumeration, a deregistration, a dispatch, a registration on the default
    context and a teardown: none of the three calls made goes to it. *)
Lemma pending_removal_is_final_witness :
  In example_pending (registry Z example_pending_world 7)
  /\ needs_free example_pending <> 0
  /\ length (calls_since Z example_pending_world
                         (run Z example_call_fn example_ops example_pending_world))
     = 3%nat
  /\ Forall (fun k => cb_handle (call_cb k) <> cb_handle example_pending
                      /\ call_cb k <> example_pending)
            (calls_since Z example_pending_world
                         (run Z example_call_fn example_ops example_pending_world)).
Proof.
  assert (H1 : In example_pending (registry Z example_pending_world 7))
    by (right; left; reflexivity).
  assert (H2 : needs_free example_pending <> 0) by discriminate.
  split; [exact H1|]. split; [exact H2|]. split.
  - vm_compute. reflexivity.
  - apply (pending_removal_is_final Z example_call_fn example_ops
             example_pending_world 7 example_pending example_pending_world_wf).
    + vm_compute. discriminate.
    + vm_compute. discriminate.
    + exact H1.
    + exact H2.
Defined.

(** C3 at a failing input.  Context 7 knows two devices; an entry for
    ARRIVED is registered with the enumerate flag and a callback (address
    2) that returns 1, "detach me".  Registration succeeds; the callback
    was called for the first device and, although it had asked to be
    detached, again for the second; the entry is still linked and active
    when registration returns, and the next ARRIVED dispatch calls it once
    more and only then unlinks it. *)
Theorem enumeration_ignores_detach_request :
  let r := libusb_hotplug_register_callback Z example_call_fn
             7 LIBUSB_HOTPLUG_EVENT_DEVICE_ARRIVED LIBUSB_HOTPLUG_ENUMERATE
             LIBUSB_HOTPLUG_MATCH_ANY LIBUSB_HOTPLUG_MATCH_ANY LIBUSB_HOTPLUG_MATCH_ANY
             2 0 0 true example_world in
  let w' := exec Z example_call_fn
                 (Dispatch example_dev LIBUSB_HOTPLUG_EVENT_DEVICE_ARRIVED) (snd r) in
  fst r = LIBUSB_SUCCESS
  /\ map call_dev (trace (snd r)) = [example_dev; example_dev2]
  /\ map (fun k => fst (example_call_fn (cb_fn (call_cb k)) (call_ctx k) (call_dev k)
                                        (call_event k) (call_user_data k) 0))
         (trace (snd r)) = [1; 1]
  /\ map needs_free (registry Z (snd r) 7) = [0]
  /\ map cb_handle (registry Z (snd r) 7) = [1]
  /\ called_handles (calls_since Z (snd r) w') = [1]
  /\ registry Z w' 7 = [].
Proof.
  vm_compute. repeat split.
Qed.

(** C4 at a failing input.  An entry is registered with the enumerate flag
    on context 7, which knows two devices, by a thread that holds no mutex:
    both callback invocations are made while the device-list mutex and the
    registry mutex of the context are held. *)
Theorem enumeration_runs_under_registry_lock :
  held example_world = []
  /\ map call_held
         (calls_since Z example_world
            (exec Z example_call_fn (register_any 7 1 1 0) example_world))
     = [[usb_devs_lock 7; hotplug_cbs_lock 7]; [usb_devs_lock 7; hotplug_cbs_lock 7]]
  /\ ~ Forall (fun k => under_guard k = false)
              (calls_since Z example_world
                 (exec Z example_call_fn (register_any 7 1 1 0) example_world)).
Proof.
  assert (E : map call_held
                  (calls_since Z example_world
                     (exec Z example_call_fn (register_any 7 1 1 0) example_world))
              = [[usb_devs_lock 7; hotplug_cbs_lock 7];
                 [usb_devs_lock 7; hotplug_cbs_lock 7]])
    by (vm_compute; reflexivity).
  split; [reflexivity|]. split; [exact E|].
  intros H.
  destruct (calls_since Z example_world
              (exec Z example_call_fn (register_any 7 1 1 0) example_world))
    as [|k l]; [discriminate|].
  inversion H as [|? ? Hk _]; subst.
  unfold under_guard in Hk. cbn [map] in E. injection E as E _.
  rewrite E in Hk. discriminate.
Qed.

Lemma callback_locks_example :
  held example_world = []
  /\ Forall (fun k => call_held k = [] /\ under_guard k = false)
            (calls_since Z example_world
               (exec Z example_call_fn
                     (Dispatch example_dev LIBUSB_HOTPLUG_EVENT_DEVICE_LEFT)
                     example_world))
  /\ Forall (fun k => call_held k = [usb_devs_lock 7; hotplug_cbs_lock 7]
                      /\ under_guard k = true)
            (calls_since Z example_world
               (exec Z example_call_fn (register_any 7 1 1 0) example_world))
  /\ held example_detach_world = []
  /\ length (calls_since Z example_detach_world
                (exec Z example_call_fn
                      (Dispatch example_dev2 LIBUSB_HOTPLUG_EVENT_DEVICE_LEFT)
                      example_detach_world)) = 2%nat
  /\ Forall (fun k => call_held k = [] /\ under_guard k = false)
            (calls_since Z example_detach_world
               (exec Z example_call_fn
                     (Dispatch example_dev2 LIBUSB_HOTPLUG_EVENT_DEVICE_LEFT)
                     example_detach_world)).
Proof.
  assert (H : held example_world = []) by reflexivity.
  assert (H' : held example_detach_world = []) by reflexivity.
  destruct (callback_locks Z example_call_fn example_world H) as [Hd Hr].
  destruct (callback_locks Z example_call_fn example_detach_world H') as [Hd' _].
  split; [exact H|]. split; [|split; [|split; [|split]]].
  - apply Hd.
  - apply (Hr 7 3 1 (-1) (-1) (-1) 1 0 0 true).
  - exact H'.
  - vm_compute. reflexivity.
  - apply Hd'.
Defined.

(** C5 refuted: two entries registered one after the other on context 7
    (handles 1, then 2); the dispatch calls the second one first. *)
Lemma dispatch_not_in_registration_order :
  let w2 := run Z example_call_fn [register_any 7 0 1 0; register_any 7 0 1 0]
                example_world in
  issued_handles Z example_call_fn [register_any 7 0 1 0; register_any 7 0 1 0]
                 example_world = [1; 2]
  /\ called_handles
       (calls_since Z w2
          (exec Z example_call_fn
                (Dispatch example_dev LIBUSB_HOTPLUG_EVENT_DEVICE_ARRIVED) w2))
     = [2; 1]
  /\ ~ oldest_first Z example_call_fn w2 example_dev LIBUSB_HOTPLUG_EVENT_DEVICE_ARRIVED.
Proof.
  cbn zeta.
  assert (E : called_handles
                (calls_since Z
                   (run Z example_call_fn [register_any 7 0 1 0; register_any 7 0 1 0]
                        example_world)
                   (exec Z example_call_fn
                      (Dispatch example_dev LIBUSB_HOTPLUG_EVENT_DEVICE_ARRIVED)
                      (run Z example_call_fn
                           [register_any 7 0 1 0; register_any 7 0 1 0]
                           example_world)))
              = [2; 1]) by (vm_compute; reflexivity).
  split; [vm_compute; reflexivity|]. split; [exact E|].
  unfold oldest_first. rewrite E. intros H.
  inversion H as [|? ? _ HF]; subst.
  inversion HF as [|? ? Hlt _]; subst. discriminate Hlt.
Qed.

Lemma example_detach_world_wf : wf Z example_detach_world.
Proof.
  assert (Hreg : forall c, registry Z example_detach_world c =
                           if c =? 7
                           then [mkCallback 7 (-1) (-1) (-1) 0 3 2 2 0 0;
                                 mkCallback 7 1234 (-1) (-1) 0 3 2 1 0 0]
                           else []).
  { intros c. unfold registry, example_detach_world. cbn [ctxs].
    destruct (c =? 7); reflexivity. }
  split; [|split].
  - intros c. rewrite Hreg. destruct (c =? 7); cbn.
    + repeat constructor.
    + constructor.
  - intros c e. rewrite Hreg. destruct (c =? 7); cbn; [|contradiction].
    intros [<-|[<-|[]]]; reflexivity.
  - intros c1 c2 e1 e2. rewrite !Hreg.
    destruct (Z.eqb_spec c1 7), (Z.eqb_spec c2 7); cbn; try contradiction.
    congruence.
Defined.

Lemma dispatch_visits_newest_first_witness :
  wf Z example_pending_world
  /\ newest_first Z example_call_fn example_pending_world example_dev
                  LIBUSB_HOTPLUG_EVENT_DEVICE_ARRIVED
  /\ registry Z (exec Z example_call_fn (register_any 7 0 1 0) example_pending_world) 7
     = mkCallback 7 (-1) (-1) (-1) 0 3 1 3 0 0 :: registry Z example_pending_world 7
  /\ wf Z example_detach_world
  /\ newest_first Z example_call_fn example_detach_world example_dev2
                  LIBUSB_HOTPLUG_EVENT_DEVICE_ARRIVED
  /\ called_handles
       (calls_since Z example_detach_world
          (exec Z example_call_fn
                (Dispatch example_dev2 LIBUSB_HOTPLUG_EVENT_DEVICE_ARRIVED)
                example_detach_world))
     = [2; 1].
Proof.
  destruct (dispatch_visits_newest_first Z example_call_fn example_pending_world)
    as (_ & Hreg & Hnew).
  destruct (dispatch_visits_newest_first Z example_call_fn example_detach_world)
    as (_ & _ & Hnew2).
  split; [exact example_pending_world_wf|]. split; [|split; [|split; [|split]]].
  - apply Hnew. exact example_pending_world_wf.
  - apply (Hreg 7 3 0 (-1) (-1) (-1) 1 0 0); reflexivity.
  - exact example_detach_world_wf.
  - apply Hnew2. exact example_detach_world_wf.
  - vm_compute. reflexivity.
Defined.

(** A LEFT event for [example_dev]: both handles bound to it are marked,
    the handle of the other device is not; an ARRIVED event marks none. *)
Lemma left_event_disconnects_witness :
  open_devs (ctxs (exec Z example_call_fn
                        (Dispatch example_dev LIBUSB_HOTPLUG_EVENT_DEVICE_LEFT)
                        example_world) 7)
  = [mkHandle 100 true; mkHandle 200 false; mkHandle 100 true]
  /\ open_devs (ctxs (exec Z example_call_fn
                           (Dispatch example_dev LIBUSB_HOTPLUG_EVENT_DEVICE_ARRIVED)
                           example_world) 7)
     = [mkHandle 100 false; mkHandle 200 false; mkHandle 100 false].
Proof.
  split.
  - destruct (left_event_disconnects Z example_call_fn example_dev
                LIBUSB_HOTPLUG_EVENT_DEVICE_LEFT example_world) as (H & _).
    cbn zeta in H. exact (H eq_refl).
  - destruct (left_event_disconnects Z example_call_fn example_dev
                LIBUSB_HOTPLUG_EVENT_DEVICE_ARRIVED example_world) as (_ & H & _).
    cbn zeta in H. apply (H ltac:(discriminate) 7).
Defined.

(** A vendor id that needs 17 bits is refused and nothing is registered. *)
Lemma register_errors_witness :
  has_hotplug example_world = true
  /\ ~ in_domain 16 65536
  /\ libusb_hotplug_register_callback Z example_call_fn
       7 3 0 65536 LIBUSB_HOTPLUG_MATCH_ANY LIBUSB_HOTPLUG_MATCH_ANY 1 0 0 true
       example_world
     = (LIBUSB_ERROR_INVALID_PARAM, example_world).
Proof.
  assert (H1 : has_hotplug example_world = true) by reflexivity.
  assert (H2 : ~ in_domain 16 65536) by (unfold in_domain; cbn; lia).
  split; [exact H1|]. split; [exact H2|].
  destruct (register_errors Z example_call_fn
              7 3 0 65536 LIBUSB_HOTPLUG_MATCH_ANY LIBUSB_HOTPLUG_MATCH_ANY 1 0 0 true
              example_world) as (_ & H & _).
  cbn zeta in H. apply H; [exact H1|].
  right. left. split; [discriminate|exact H2].
Defined.

(** Deregistering handle 2 in [example_pending_world]: the first entry has
    [needs_free] 1 afterwards and its other fields as before, the second
    one is as it was. *)
Lemma deregister_marks_only_witness :
  has_hotplug example_pending_world = true
  /\ registry Z (exec Z example_call_fn (Deregister 7 2) example_pending_world) 7
     = [mkCallback 7 (-1) (-1) (-1) 0 3 1 2 0 1; example_pending].
Proof.
  assert (H1 : has_hotplug example_pending_world = true) by reflexivity.
  split; [exact H1|].
  destruct (deregister_marks_only Z example_call_fn 7 2 example_pending_world)
    as (_ & _ & H & _).
  cbn zeta in H. exact (H H1).
Defined.

(** Three registrations on three contexts (7, 9 and the default one),
    interleaved with other calls, obtain 1, 2 and 3. *)
Lemma handle_ids_fresh_witness :
  handle_id example_world = 1
  /\ issued_handles Z example_call_fn
       [register_any 7 1 1 0; register_any 9 0 1 0; Deregister 7 1;
        Dispatch example_dev 1; register_any 0 0 1 0] example_world
     = Zseq 1 3.
Proof.
  assert (H1 : handle_id example_world = 1) by reflexivity.
  split; [exact H1|].
  destruct (handle_ids_fresh Z example_call_fn
              [register_any 7 1 1 0; register_any 9 0 1 0; Deregister 7 1;
               Dispatch example_dev 1; register_any 0 0 1 0] example_world H1)
    as (H & _).
  - vm_compute. reflexivity.
  - cbn zeta in H. exact H.
Defined.

(** Registration with a null output location: SUCCESS, the entry is linked
    with handle 1, and the counter stands at 2 afterwards. *)
Lemma register_without_handle_location_witness :
  has_hotplug example_world = true
  /\ valid_params 1114 20485 LIBUSB_HOTPLUG_MATCH_ANY 1
  /\ 1 <= handle_id example_world < INT_MAX
  /\ fst (libusb_hotplug_register_callback Z example_call_fn
            7 3 0 1114 20485 LIBUSB_HOTPLUG_MATCH_ANY 1 0 NULL true example_world)
     = LIBUSB_SUCCESS
  /\ registry Z (snd (libusb_hotplug_register_callback Z example_call_fn
                        7 3 0 1114 20485 LIBUSB_HOTPLUG_MATCH_ANY 1 0 NULL true
                        example_world)) 7
     = [example_cb]
  /\ handle_id (snd (libusb_hotplug_register_callback Z example_call_fn
                       7 3 0 1114 20485 LIBUSB_HOTPLUG_MATCH_ANY 1 0 NULL true
                       example_world))
     = handle_id example_world + 1.
Proof.
  assert (H1 : has_hotplug example_world = true) by reflexivity.
  assert (H2 : valid_params 1114 20485 LIBUSB_HOTPLUG_MATCH_ANY 1).
  { unfold valid_params, in_domain. cbn.
    repeat split; try (right; lia); try (left; reflexivity). discriminate. }
  assert (H3 : 1 <= handle_id example_world < INT_MAX)
    by (split; [discriminate|reflexivity]).
  split; [exact H1|]. split; [exact H2|]. split; [exact H3|].
  destruct (register_without_handle_location Z example_call_fn
              7 3 0 1114 20485 LIBUSB_HOTPLUG_MATCH_ANY 1 0 NULL example_world H1 H2)
    as (Hs & Hreg & _ & _ & _ & _ & _ & _ & _ & _ & _ & Hadv & _).
  split; [exact Hs|]. split; [exact Hreg|]. exact (proj1 (Hadv H3)).
Defined.

(** Context 7 of [example_pending_world] is torn down: its registry is
    empty and a dispatch of ARRIVED on it calls nothing. *)
Lemma teardown_clears_witness :
  dev_ctx example_dev = 7
  /\ registry Z (exec Z example_call_fn (DeregisterAll 7) example_pending_world) 7 = []
  /\ calls_since Z (exec Z example_call_fn (DeregisterAll 7) example_pending_world)
       (exec Z example_call_fn (Dispatch example_dev 1)
             (exec Z example_call_fn (DeregisterAll 7) example_pending_world))
     = [].
Proof.
  destruct (teardown_clears Z example_call_fn 7 example_pending_world)
    as (H1 & _ & _ & _ & _ & _ & H7).
  split; [reflexivity|]. split; [exact H1|].
  apply (H7 example_dev 1 eq_refl).
Defined.

Lemma dispatch_only_removes_witness :
  9 <> dev_ctx example_dev
  /\ registry Z (exec Z example_call_fn (Dispatch example_dev 1) example_pending_world) 9
     = registry Z example_pending_world 9
  /\ Forall (fun e => needs_free e = 0)
            (registry Z (exec Z example_call_fn (Dispatch example_dev 1)
                              example_pending_world) 7).
Proof.
  assert (H9 : 9 <> dev_ctx example_dev) by discriminate.
  destruct (dispatch_only_removes Z example_call_fn example_dev 1 example_pending_world)
    as (_ & Hact & Hoth & _).
  split; [exact H9|]. split; [exact (Hoth 9 H9)|exact Hact].
Defined.

(** An event with bit 4 only, to which no entry of [example_pending_world]
    listens: the pending entry goes, the active one stays, nothing is
    called. *)
Lemma dispatch_keeps_unmatched_witness :
  (forall cb, In cb (registry Z example_pending_world (dev_ctx example_dev)) ->
              cb_matches example_dev 4 cb = false)
  /\ registry Z (exec Z example_call_fn (Dispatch example_dev 4) example_pending_world)
              (dev_ctx example_dev)
     = [example_active]
  /\ calls_since Z example_pending_world
       (exec Z example_call_fn (Dispatch example_dev 4) example_pending_world) = [].
Proof.
  assert (H : forall cb,
             In cb (registry Z example_pending_world (dev_ctx example_dev)) ->
             cb_matches example_dev 4 cb = false).
  { intros cb [<-|[<-|[]]]; reflexivity. }
  destruct (dispatch_keeps_unmatched Z example_call_fn example_dev 4
              example_pending_world) as (_ & Hno).
  destruct (Hno H) as (Hr & Hc & _).
  split; [exact H|]. split; [exact Hr|exact Hc].
Defined.

(** The callback at address 1 returns 0, the one at address 2 returns 1:
    the dispatch keeps the active entry of [example_pending_world], and in
    [example_detach_world] only the entry that does not match. *)
Lemma dispatch_respects_return_witness :
  registry Z (exec Z example_call_fn (Dispatch example_dev 1) example_pending_world) 7
  = [example_active]
  /\ registry Z (exec Z example_call_fn (Dispatch example_dev 1) example_detach_world) 7
     = [mkCallback 7 1234 (-1) (-1) 0 3 2 1 0 0].
Proof.
  split.
  - destruct (dispatch_respects_return Z example_call_fn example_dev 1
                example_pending_world) as (H & _).
    apply H. intros cb u [<-|[<-|[]]]; reflexivity.
  - destruct (dispatch_respects_return Z example_call_fn example_dev 1
                example_detach_world) as (_ & H).
    apply H. intros cb u [<-|[<-|[]]]; discriminate.
Defined.


(** Enumeration in [example_world]: the catch-all entry is called for both
    known devices, in the order of the device list. *)
Lemma enumeration_keeps_entry_witness :
  Z.land 1 LIBUSB_HOTPLUG_ENUMERATE <> 0
  /\ map call_dev
         (calls_since Z example_world
            (exec Z example_call_fn (register_any 7 1 1 0) example_world))
     = [example_dev; example_dev2].
Proof.
  assert (Hf : Z.land 1 LIBUSB_HOTPLUG_ENUMERATE <> 0) by discriminate.
  assert (Hv : valid_params (-1) (-1) (-1) 1).
  { unfold valid_params. repeat split; try (left; reflexivity). discriminate. }
  split; [exact Hf|].
  destruct (enumeration_keeps_entry Z example_call_fn 7 3 1 (-1) (-1) (-1) 1 0 0
              example_world eq_refl Hv Hf) as (H & _).
  exact H.
Defined.

(** Without the enumerate flag the two known devices cause no call. *)
Lemma register_without_calls_witness :
  Z.land 0 LIBUSB_HOTPLUG_ENUMERATE = 0
  /\ calls_since Z example_world
       (exec Z example_call_fn (register_any 7 0 1 0) example_world) = [].
Proof.
  split; [reflexivity|].
  apply (register_without_calls Z example_call_fn 7 3 0 (-1) (-1) (-1) 1 0 0 true
           example_world).
  left. reflexivity.
Defined.

Lemma locks_released_on_return_witness :
  held example_pending_world = []
  /\ held (run Z example_call_fn example_ops example_pending_world) = [].
Proof.
  split; [reflexivity|].
  apply (locks_released_on_return Z example_call_fn example_ops example_pending_world).
  reflexivity.
Defined.

(** The invariant after five operations from the initial world. *)
Lemma wf_run_witness :
  wf Z (run Z example_call_fn example_ops (initial_world true 5 0)).
Proof.
  apply (wf_run Z example_call_fn example_ops (initial_world true 5 0)).
  - vm_compute. discriminate.
  - vm_compute. discriminate.
  - apply wf_initial.
Defined.

Lemma register_result_iff_witness :
  fst (libusb_hotplug_register_callback Z example_call_fn
         7 3 0 1114 20485 (-1) 1 0 0 true example_world) = LIBUSB_SUCCESS
  /\ fst (libusb_hotplug_register_callback Z example_call_fn
            7 3 0 1114 20485 (-1) 1 0 0 false example_world) = LIBUSB_ERROR_NO_MEM.
Proof.
  assert (H2 : valid_params 1114 20485 (-1) 1).
  { unfold valid_params, in_domain. cbn.
    repeat split; try (right; lia); try (left; reflexivity). discriminate. }
  split.
  - destruct (register_result_iff Z example_call_fn 7 3 0 1114 20485 (-1) 1 0 0 true
                example_world) as ((_ & H) & _).
    apply H. split; [reflexivity|]. split; [exact H2|reflexivity].
  - destruct (register_result_iff Z example_call_fn 7 3 0 1114 20485 (-1) 1 0 0 false
                example_world) as (_ & _ & _ & (_ & H)).
    apply H. split; [reflexivity|]. split; [exact H2|reflexivity].
Defined.

(** Handle 2 is linked in context 7; a deregistration of 2 in context 9
    changes nothing. *)
Lemma deregister_is_context_scoped_witness :
  In example_active (registry Z example_pending_world 7)
  /\ resolve Z example_pending_world 9 <> 7
  /\ registry Z (exec Z example_call_fn (Deregister 9 2) example_pending_world) 7
     = registry Z example_pending_world 7.
Proof.
  assert (H1 : In example_active (registry Z example_pending_world 7))
    by (left; reflexivity).
  assert (H2 : resolve Z example_pending_world 9 <> 7) by discriminate.
  split; [exact H1|]. split; [exact H2|].
  exact (deregister_is_context_scoped Z example_call_fn 9 example_active 7
           example_pending_world example_pending_world_wf H1 H2 7).
Defined.
